(** * frasco-eu-vat: EU VAT rates, VAT numbers and exchange rates

    A shallow embedding of [frasco_eu_vat.py]: the country table, the two
    process-wide caches, the four methods of [EUVATService] and the
    [should_charge_vat] policy of [EUVATFeature], followed by the
    properties of the specification that concern them.

    Conventions of the embedding.
    - Python [str] values are byte strings ([string]); [upper] and [lower]
      act on the ASCII letters.
    - Python [float] is IEEE 754 binary64 ([PrimFloat.float]).
    - A Python expression that can evaluate to [None], a [str] or a [bool]
      (the operands of [and], [or], [not]) is a [pyval].
    - A method is a function from the process state to an outcome and a
      new state; an exception keeps the state changes made before it.
    - Everything outside the process (the clock, the ECB feed, the TIC and
      VIES SOAP services) is a field of [World]. *)

From Stdlib Require Import Floats ZArith String Ascii List.
From stdpp Require Import base option gmap strings list fin_maps.

Local Open Scope string_scope.
Local Open Scope Z_scope.

(** ** Python values and truthiness *)

Inductive pyval : Type :=
| PNone
| PBool (b : bool)
| PStr (s : string).

(** [bool(v)]: [None], [False] and the empty string are falsy. *)
Definition truthy (v : pyval) : bool :=
  match v with
  | PNone => false
  | PBool b => b
  | PStr s => negb (String.eqb s "")
  end.

(** [a and b], [a or b], [not a]: the first two return an operand. *)
Definition py_and (a b : pyval) : pyval := if truthy a then b else a.
Definition py_or (a b : pyval) : pyval := if truthy a then a else b.
Definition py_not (a : pyval) : pyval := PBool (negb (truthy a)).

(** An optional string argument ([None] or a [str]) as a value. *)
Definition of_opt_str (o : option string) : pyval :=
  match o with
  | None => PNone
  | Some s => PStr s
  end.

(** [bool(x)] for a float: zero of either sign is falsy. *)
Definition float_truthy (x : float) : bool := negb (PrimFloat.eqb x 0%float).

(** ** Strings *)

Definition upper_ascii (c : ascii) : ascii :=
  let n := N_of_ascii c in
  if ((97 <=? n) && (n <=? 122))%N then ascii_of_N (n - 32) else c.

Definition lower_ascii (c : ascii) : ascii :=
  let n := N_of_ascii c in
  if ((65 <=? n) && (n <=? 90))%N then ascii_of_N (n + 32) else c.

Fixpoint str_map (f : ascii -> ascii) (s : string) : string :=
  match s with
  | EmptyString => EmptyString
  | String c r => String (f c) (str_map f r)
  end.

Definition upper : string -> string := str_map upper_ascii.
Definition lower : string -> string := str_map lower_ascii.

(** [s[0:2]] and [s[2:]]. *)
Definition slice_0_2 (s : string) : string := substring 0 2 s.
Definition slice_2_end (s : string) : string := substring 2 (String.length s - 2) s.

(** ** The country table *)

Definition EU_COUNTRIES : gmap string string :=
  list_to_map
    [ ("AT", "EUR"); ("BE", "EUR"); ("BG", "BGN"); ("DE", "EUR");
      ("CY", "EUR"); ("CZ", "CZK"); ("DK", "DKK"); ("EE", "EUR");
      ("ES", "EUR"); ("FI", "EUR"); ("FR", "EUR"); ("GB", "GBP");
      ("GR", "EUR"); ("HR", "HRK"); ("HU", "HUF"); ("IE", "EUR");
      ("IT", "EUR"); ("LT", "EUR"); ("LV", "EUR"); ("LU", "EUR");
      ("MT", "EUR"); ("NL", "EUR"); ("PL", "PLN"); ("PT", "EUR");
      ("RO", "RON"); ("SE", "SEK"); ("SI", "EUR"); ("SK", "EUR") ].

(** [k in d] for a dictionary. *)
Definition py_in {V} (k : string) (d : gmap string V) : bool :=
  match d !! k with
  | Some _ => true
  | None => false
  end.

(** [is_eu_country(country_code)]:
    [country_code and country_code.upper() in EU_COUNTRIES]. *)
Definition is_eu_country (country_code : option string) : pyval :=
  py_and (of_opt_str country_code)
         (PBool (match country_code with
                 | Some c => py_in (upper c) EU_COUNTRIES
                 | None => false
                 end)).

(** ** Configuration of the feature ([EUVATFeature.defaults]) *)

Record Options : Type := {
  own_country : option string;
  vat_rate : string;
}.

Definition defaults : Options :=
  {| own_country := None; vat_rate := "standard" |}.

Definition opt_str_eqb (a b : option string) : bool :=
  match a, b with
  | None, None => true
  | Some x, Some y => String.eqb x y
  | _, _ => false
  end.

(** [EUVATFeature.should_charge_vat(country_code, eu_vat_number)]. *)
Definition should_charge_vat (options : Options)
    (country_code : option string) (eu_vat_number : pyval) : pyval :=
  py_and (is_eu_country country_code)
         (py_or (PBool (opt_str_eqb (own_country options) country_code))
                (py_not eu_vat_number)).

(** ** Exceptions, outcomes and the process state *)

(** The exceptions that occur: frasco's [ServiceError] with its HTTP
    status, suds' [WebFault], the builtin ones, and [Failure] for any
    other exception of the transport or of a parser. *)
Inductive exn : Type :=
| ServiceError (message : string) (http_code : Z)
| WebFault
| KeyError (key : string)
| UnboundLocalError (name : string)
| TypeError
| ZeroDivisionError
| Failure (what : string).

Inductive outcome (A : Type) : Type :=
| Ok (a : A)
| Raise (e : exn).
Arguments Ok {A} a.
Arguments Raise {A} e.

(** A calendar date, as its proleptic ordinal ([date.toordinal()]). *)
Abbreviation date := Z (only parsing).

(** The outbound requests the module makes. *)
Inductive Call : Type :=
| CallECB
| CallTIC (memberState : string) (requestDate : date)
| CallVIES (countryCode vatNumber : string).

(** What lies outside the process, as one service call sees it: the
    date does not change while a call runs, and each service answers a
    given request in one way. Two calls may run in different worlds.
    [ecb_feed] is the outcome of [requests.get] on the ECB URL followed by
    the parse: the [currency] and [float(rate)] of each matched [Cube]
    element in document order, or the exception that the transport, the
    XML parser or the conversion raised. [tic_getRates] answers with the
    [type] and [float(value)] of each element of [r.ratesResponse.rate],
    [vies_checkVat] with [r.valid]; both can answer with [Raise WebFault]
    or with another exception. *)
Record World : Type := {
  today : date;
  ecb_feed : outcome (list (string * float));
  tic_getRates : string -> date -> outcome (list (string * float));
  vies_checkVat : string -> string -> outcome bool;
}.

(** The two module-level caches, and the log of outbound requests in
    the order they were made. *)
Record State : Type := {
  _exchange_rates_cache : gmap date (gmap string float);
  _vat_rates_cache : gmap string (gmap string float);
  calls : list Call;
}.

Definition initial_state : State :=
  {| _exchange_rates_cache := ∅; _vat_rates_cache := ∅; calls := [] |}.

(** ** A state and exception monad *)

Definition M (A : Type) : Type := State -> outcome A * State.

Definition ret {A} (a : A) : M A := fun s => (Ok a, s).

Definition raise {A} (e : exn) : M A := fun s => (Raise e, s).

Definition bind {A B} (m : M A) (f : A -> M B) : M B :=
  fun s =>
    match m s with
    | (Ok a, s1) => f a s1
    | (Raise e, s1) => (Raise e, s1)
    end.

Declare Scope py_scope.
Delimit Scope py_scope with py.
Notation "x <- m ;; k" := (bind m (fun x => k))
  (at level 100, m at next level, right associativity) : py_scope.
Notation "m ;; k" := (bind m (fun _ => k))
  (at level 100, right associativity) : py_scope.
Local Open Scope py_scope.

Definition gets {A} (f : State -> A) : M A := fun s => (Ok (f s), s).

Definition modify (f : State -> State) : M unit := fun s => (Ok tt, f s).

(** [try: body / except WebFault: handler]: any other exception passes. *)
Definition except_WebFault {A} (body handler : M A) : M A :=
  fun s =>
    match body s with
    | (Raise WebFault, s1) => handler s1
    | r => r
    end.

(** [d[k]]: a missing key raises [KeyError]. *)
Definition subscript {V} (d : gmap string V) (k : string) : M V :=
  match d !! k with
  | Some v => ret v
  | None => raise (KeyError k)
  end.

(** [x / y] on floats: a zero divisor raises. *)
Definition py_div (x y : float) : M float :=
  if PrimFloat.eqb y 0%float then raise ZeroDivisionError
  else ret (x / y)%float.

(** [for x in l: body]. *)
Fixpoint for_each {A} (l : list A) (body : A -> M unit) : M unit :=
  match l with
  | [] => ret tt
  | x :: rest => body x ;; for_each rest body
  end.

(** An outbound request: it is logged, then the world answers. *)
Definition request {A} (c : Call) (answer : outcome A) : M A :=
  fun s =>
    (answer,
     {| _exchange_rates_cache := _exchange_rates_cache s;
        _vat_rates_cache := _vat_rates_cache s;
        calls := calls s ++ [c] |}).

Definition set_exchange_rates_cache (c : gmap Z (gmap string float)) : M unit :=
  modify (fun s =>
    {| _exchange_rates_cache := c;
       _vat_rates_cache := _vat_rates_cache s;
       calls := calls s |}).

Definition set_vat_rates_cache (c : gmap string (gmap string float)) : M unit :=
  modify (fun s =>
    {| _exchange_rates_cache := _exchange_rates_cache s;
       _vat_rates_cache := c;
       calls := calls s |}).

(** ** The exchange-rate fetcher *)

(** The loop of [fetch_exchange_rates] over the [Cube] elements:
    [rates[currency] = float(rate)], starting from [{'EUR': 1.0}]. *)
Definition parse_rates (cubes : list (string * float)) : gmap string float :=
  fold_left (fun rates cube => <[cube.1 := cube.2]> rates) cubes {["EUR" := 1%float]}.

Definition fetch_exchange_rates (w : World) : M (gmap string float) :=
  cache <- gets _exchange_rates_cache ;;
  match cache !! today w with
  | Some rates => ret rates
  | None =>
      cubes <- request CallECB (ecb_feed w) ;;
      let rates := parse_rates cubes in
      cache <- gets _exchange_rates_cache ;;
      set_exchange_rates_cache (<[today w := rates]> cache) ;;
      ret rates
  end.

(** ** The service ([EUVATService]) *)

Section Service.

(** Python's builtin [round(x, ndigits)] on floats, and the options of
    the [eu_vat] feature of the running application. *)
Variable py_round : float -> Z -> float.
Variable options : Options.

(** [r.ratesResponse.rate] after the [try] of [get_vat_rate]: the local
    [r] is bound only when the call returned. *)
Definition read_local {A} (name : string) (slot : option A) : M A :=
  match slot with
  | Some v => ret v
  | None => raise (UnboundLocalError name)
  end.

(** [_vat_rates_cache[country_code][label] = value]. *)
Definition store_vat_rate (country_code label : string) (value : float) : M unit :=
  cache <- gets _vat_rates_cache ;;
  entry <- subscript cache country_code ;;
  set_vat_rates_cache (<[country_code := <[label := value]> entry]> cache).

Definition get_vat_rate (w : World) (country_code : string)
    (rate_type : option string) : M (option float) :=
  if negb (truthy (is_eu_country (Some country_code))) then
    raise (ServiceError "Not an EU country" 404)
  else
    let rate_type :=
      if negb (truthy (of_opt_str rate_type)) then vat_rate options
      else default "" rate_type in
    cache <- gets _vat_rates_cache ;;
    (if negb (py_in country_code cache) then
       r <- except_WebFault
              (resp <- request (CallTIC country_code (today w))
                               (tic_getRates w country_code (today w)) ;;
               ret (Some resp))
              (ret None) ;;
       cache <- gets _vat_rates_cache ;;
       set_vat_rates_cache (<[country_code := ∅]> cache) ;;
       rates <- read_local "r" r ;;
       for_each rates (fun rate => store_vat_rate country_code (lower rate.1) rate.2)
     else ret tt) ;;
    cache <- gets _vat_rates_cache ;;
    entry <- subscript cache country_code ;;
    ret (entry !! lower rate_type).

Definition validate_vat_number (w : World) (vat_number : string) : M bool :=
  if (String.length vat_number <? 3)%nat then
    raise (ServiceError "VAT number too short" 400)
  else
    except_WebFault
      (let countryCode := upper (slice_0_2 vat_number) in
       let vatNumber := slice_2_end vat_number in
       request (CallVIES countryCode vatNumber)
               (vies_checkVat w countryCode vatNumber))
      (ret false).

Definition get_exchange_rate (w : World) (country_code src_currency : string) : M float :=
  if negb (truthy (is_eu_country (Some country_code))) then
    raise (ServiceError "Not an EU country" 404)
  else
    dest_currency <- subscript EU_COUNTRIES country_code ;;
    rates <- fetch_exchange_rates w ;;
    if String.eqb src_currency dest_currency then ret 1%float
    else if String.eqb src_currency "EUR" then subscript rates dest_currency
    else if negb (py_in src_currency rates) then
      raise (ServiceError "Can only use a currency listed in the ECB rates" 400)
    else
      src_rate <- subscript rates src_currency ;;
      inverse <- py_div 1%float src_rate ;;
      dest_rate <- subscript rates dest_currency ;;
      ret (py_round (inverse * dest_rate)%float 5).

(** The keys that [check] adds with [o.update] when an amount is given. *)
Record Amounts : Type := {
  amount : float;
  vat_amount : float;
  amount_with_vat : float;
  exchanged_amount_with_vat : float;
}.

(** The dictionary [o] that [check] returns; [o_amounts] is [None] when
    the four keys of [Amounts] are absent. *)
Record PricingResult : Type := {
  o_country : string;
  o_currency : string;
  o_vat_rate : option float;
  o_vat_number : option string;
  o_is_vat_number_valid : bool;
  o_should_charge_vat : pyval;
  o_exchange_rate : float;
  o_src_currency : string;
  o_amounts : option Amounts;
}.

Definition check (w : World) (country_code : string) (vat_number : option string)
    (amount : option float) (src_currency : string) : M PricingResult :=
  if negb (truthy (is_eu_country (Some country_code))) then
    raise (ServiceError "Not an EU country" 404)
  else
    is_vat_number_valid <-
      (if truthy (of_opt_str vat_number)
       then validate_vat_number w (default "" vat_number)
       else ret false) ;;
    currency <- subscript EU_COUNTRIES country_code ;;
    vat_rate <- get_vat_rate w country_code None ;;
    let charge :=
      should_charge_vat options (Some country_code)
        (py_and (of_opt_str vat_number) (PBool is_vat_number_valid)) in
    exchange_rate <- get_exchange_rate w country_code src_currency ;;
    let o (amounts : option Amounts) :=
      {| o_country := country_code;
         o_currency := currency;
         o_vat_rate := vat_rate;
         o_vat_number := vat_number;
         o_is_vat_number_valid := is_vat_number_valid;
         o_should_charge_vat := charge;
         o_exchange_rate := exchange_rate;
         o_src_currency := src_currency;
         o_amounts := amounts |} in
    match amount with
    | Some amount =>
        if float_truthy amount then
          rate <-
            (if truthy charge then
               match vat_rate with
               | Some v => ret (v / 100)%float
               | None => raise TypeError
               end
             else ret 0%float) ;;
          ret (o (Some
            {| amount := amount;
               vat_amount := py_round (amount * rate)%float 2;
               amount_with_vat := (amount + amount * rate)%float;
               exchanged_amount_with_vat :=
                 py_round ((amount + amount * rate) * exchange_rate)%float 2 |}))
        else ret (o None)
    | None => ret (o None)
    end.

End Service.

Arguments get_vat_rate options w country_code rate_type _ : assert.
Arguments validate_vat_number w vat_number _ : assert.
Arguments get_exchange_rate py_round w country_code src_currency _ : assert.
Arguments check py_round options w country_code vat_number amount src_currency _ : assert.

(** ** Vocabulary of the properties *)

(** The membership test of the module: the upper-cased code is a key of
    the table. *)
Definition eu_member (country_code : string) : bool :=
  py_in (upper country_code) EU_COUNTRIES.

(** The rejection of a country that is not in the Union. *)
Definition not_eu_country {A} : outcome A := Raise (ServiceError "Not an EU country" 404).

(** The state after a request [c] was logged. *)
Definition logged (c : Call) (s : State) : State :=
  {| _exchange_rates_cache := _exchange_rates_cache s;
     _vat_rates_cache := _vat_rates_cache s;
     calls := calls s ++ [c] |}.

(** The rate [check] applies to the amount: the VAT rate of the result
    divided by 100 when VAT is charged, and 0 otherwise. It is undefined
    when VAT is charged and the result has no VAT rate. *)
Definition effective_rate (o : PricingResult) : option float :=
  if truthy (o_should_charge_vat o)
  then (fun v => (v / 100)%float) <$> o_vat_rate o
  else Some 0%float.

(** The [EUR] entry after the loop of [fetch_exchange_rates]: 1.0, or
    the rate of the last [Cube] element whose currency is [EUR]. *)
Definition eur_entry (cubes : list (string * float)) : float :=
  fold_left (fun rate cube => if String.eqb cube.1 "EUR" then cube.2 else rate)
            cubes 1%float.

(** Two facts about the snapshot cache along an execution: a snapshot
    stored under a date stays there unchanged, and every stored snapshot
    was built by the loop of [fetch_exchange_rates]. *)
Definition snapshots_kept (s s' : State) : Prop :=
  forall d rates,
    _exchange_rates_cache s !! d = Some rates ->
    _exchange_rates_cache s' !! d = Some rates.

Definition snapshots_parsed (s : State) : Prop :=
  forall d rates,
    _exchange_rates_cache s !! d = Some rates ->
    exists cubes, rates = parse_rates cubes.

Definition stable (s s' : State) : Prop :=
  snapshots_kept s s' /\ (snapshots_parsed s -> snapshots_parsed s').

(** A computation keeps the snapshots when every run of it does. *)
Definition keeps {A} (m : M A) : Prop := forall s, stable s (m s).2.

(** One call of a function of the module, with any arguments, any
    configuration and any behaviour of the outside world. *)
Inductive step : State -> State -> Prop :=
| step_fetch_exchange_rates w s :
    step s (fetch_exchange_rates w s).2
| step_get_vat_rate options w country_code rate_type s :
    step s (get_vat_rate options w country_code rate_type s).2
| step_validate_vat_number w vat_number s :
    step s (validate_vat_number w vat_number s).2
| step_get_exchange_rate py_round w country_code src_currency s :
    step s (get_exchange_rate py_round w country_code src_currency s).2
| step_check py_round options w country_code vat_number amount src_currency s :
    step s (check py_round options w country_code vat_number amount src_currency s).2.

(** The states of a process: those that calls lead to from the state at
    import time. *)
Definition reachable (s : State) : Prop := rtc step initial_state s.

(** ** A rounding function and a world to run the model on

    The theorems below hold for every [py_round]. To evaluate the model
    on examples, [round_half_even] rounds the exact binary value of [x] to
    the nearest multiple of [10^-ndigits], ties to the even multiple, and
    returns the binary64 value nearest to the result (what Python 3's
    [round] computes on finite floats). *)

Definition round_half_even (x : float) (ndigits : Z) : float :=
  match Prim2SF x with
  | S754_finite sign m e =>
      let up := 10 ^ Z.max ndigits 0 in
      let down := 10 ^ Z.max (- ndigits) 0 in
      let num := Z.pos m * 2 ^ Z.max e 0 * up in
      let den := 2 ^ Z.max (- e) 0 * down in
      let q := num / den in
      let r := num mod den in
      let n := if 2 * r <? den then q
               else if den <? 2 * r then q + 1
               else if Z.even q then q else q + 1 in
      match (n * down)%Z with
      | Z.pos p =>
          SF2Prim (SFdiv prec emax (S754_finite sign p 0)
                                   (S754_finite false (Z.to_pos up) 0))
      | _ => SF2Prim (S754_zero sign)
      end
  | _ => x
  end.

(** The first of January 2017, a day on which the ECB lists three currencies, TIC knows two rates
    for every member state and VIES finds every number valid. *)
Definition a_world : World :=
  {| today := 736330;
     ecb_feed := Ok [("USD", 1.25%float); ("GBP", 0.875%float); ("DKK", 7.5%float)];
     tic_getRates := fun _ _ => Ok [("Standard", 20%float); ("Reduced", 5.5%float)];
     vies_checkVat := fun _ _ => Ok true |}.

(** The same day with all three remote services failing: the SOAP
    services answer with a fault, the feed cannot be downloaded. *)
Definition a_failing_world : World :=
  {| today := 736330;
     ecb_feed := Raise (Failure "ConnectionError");
     tic_getRates := fun _ _ => Raise WebFault;
     vies_checkVat := fun _ _ => Raise WebFault |}.

(** The default options with the seller's home country set. *)
Definition seller (home : string) : Options :=
  {| own_country := Some home; vat_rate := "standard" |}.

(** The scenario of the specification: an Irish buyer with a valid VAT
    number, a French seller, 50 euros. No VAT is charged. *)
Definition irish_buyer : PricingResult :=
  {| o_country := "IE";
     o_currency := "EUR";
     o_vat_rate := Some 20%float;
     o_vat_number := Some "IE1234567";
     o_is_vat_number_valid := true;
     o_should_charge_vat := PBool false;
     o_exchange_rate := 1%float;
     o_src_currency := "EUR";
     o_amounts := Some {| amount := 50%float;
                          vat_amount := 0%float;
                          amount_with_vat := 50%float;
                          exchanged_amount_with_vat := 50%float |} |}.

(** A feed that lists the euro itself. *)
Definition a_world_listing_EUR : World :=
  {| today := 736330;
     ecb_feed := Ok [("EUR", 2%float); ("USD", 1.25%float)];
     tic_getRates := fun _ _ => Ok [("Standard", 20%float)];
     vies_checkVat := fun _ _ => Ok true |}.

(** A feed that lists the euro twice, with two rates. *)
Definition a_world_listing_EUR_twice : World :=
  {| today := 736330;
     ecb_feed := Ok [("EUR", 2%float); ("USD", 1.25%float); ("EUR", 3%float)];
     tic_getRates := fun _ _ => Ok [("Standard", 20%float)];
     vies_checkVat := fun _ _ => Ok true |}.

(** A string of ASCII characters: on these [upper] and [lower] are
    Python's [str.upper] and [str.lower] for every kind of string. *)
Definition is_ascii_char (c : ascii) : bool := (N_of_ascii c <? 128)%N.

Fixpoint is_ascii (s : string) : bool :=
  match s with
  | EmptyString => true
  | String c rest => is_ascii_char c && is_ascii rest
  end.

(** ** The feature ([EUVATFeature]) *)

(** A record of the configured model, with the three columns that
    [init_app] ensures on it. *)
Module Model.
Record t : Type := {
  eu_vat_country : option string;
  eu_vat_number : option string;
  eu_vat_rate : option float;
}.
End Model.

(** An invoice as [on_invoice] reads and writes it: [country],
    [currency], [tax_amount] and the customer's VAT number
    ([sender.customer.eu_vat_number]) come from the invoicing feature,
    the other attributes are the ones this feature fills in. Amounts
    and rates are floats, as the columns that [init_app] ensures. *)
Module Invoice.
Record t : Type := {
  country : option string;
  currency : string;
  tax_amount : option float;
  customer_eu_vat_number : option string;
  is_eu_country : option bool;
  eu_vat_number : option string;
  eu_exchange_rate : option float;
  eu_vat_amount : option float;
  customer_special_mention : option string;
}.

Definition set_is_eu_country (v : bool) (i : t) : t :=
  {| country := country i; currency := currency i; tax_amount := tax_amount i;
     customer_eu_vat_number := customer_eu_vat_number i;
     is_eu_country := Some v;
     eu_vat_number := eu_vat_number i; eu_exchange_rate := eu_exchange_rate i;
     eu_vat_amount := eu_vat_amount i;
     customer_special_mention := customer_special_mention i |}.

Definition set_eu_vat_number (v : option string) (i : t) : t :=
  {| country := country i; currency := currency i; tax_amount := tax_amount i;
     customer_eu_vat_number := customer_eu_vat_number i;
     is_eu_country := is_eu_country i;
     eu_vat_number := v; eu_exchange_rate := eu_exchange_rate i;
     eu_vat_amount := eu_vat_amount i;
     customer_special_mention := customer_special_mention i |}.

Definition set_eu_exchange_rate (v : option float) (i : t) : t :=
  {| country := country i; currency := currency i; tax_amount := tax_amount i;
     customer_eu_vat_number := customer_eu_vat_number i;
     is_eu_country := is_eu_country i;
     eu_vat_number := eu_vat_number i; eu_exchange_rate := v;
     eu_vat_amount := eu_vat_amount i;
     customer_special_mention := customer_special_mention i |}.

Definition set_eu_vat_amount (v : float) (i : t) : t :=
  {| country := country i; currency := currency i; tax_amount := tax_amount i;
     customer_eu_vat_number := customer_eu_vat_number i;
     is_eu_country := is_eu_country i;
     eu_vat_number := eu_vat_number i; eu_exchange_rate := eu_exchange_rate i;
     eu_vat_amount := Some v;
     customer_special_mention := customer_special_mention i |}.

Definition set_customer_special_mention (v : string) (i : t) : t :=
  {| country := country i; currency := currency i; tax_amount := tax_amount i;
     customer_eu_vat_number := customer_eu_vat_number i;
     is_eu_country := is_eu_country i;
     eu_vat_number := eu_vat_number i; eu_exchange_rate := eu_exchange_rate i;
     eu_vat_amount := eu_vat_amount i;
     customer_special_mention := Some v |}.
End Invoice.

(** What a method that mutates the object it is given leaves behind: its
    outcome, the object, and the process state. An exception keeps the
    attributes assigned before it. *)
Record Mutated (Obj : Type) : Type := {
  outcome_of : outcome unit;
  object_of : Obj;
  state_of : State;
}.
Arguments outcome_of {Obj} _.
Arguments object_of {Obj} _.
Arguments state_of {Obj} _.

(** [EUVATFeature.set_model_country(obj, country_code)]. *)
Definition set_model_country (options : Options) (w : World)
    (obj : Model.t) (country_code : option string) (s : State) : Mutated Model.t :=
  if truthy (is_eu_country country_code) then
    let eu_vat_country := upper (default "" country_code) in
    let obj1 :=
      {| Model.eu_vat_country := Some eu_vat_country;
         Model.eu_vat_number := Model.eu_vat_number obj;
         Model.eu_vat_rate := Model.eu_vat_rate obj |} in
    match get_vat_rate options w eu_vat_country None s with
    | (Ok rate, s1) =>
        {| outcome_of := Ok tt;
           object_of :=
             {| Model.eu_vat_country := Some eu_vat_country;
                Model.eu_vat_number := Model.eu_vat_number obj;
                Model.eu_vat_rate := rate |};
           state_of := s1 |}
    | (Raise e, s1) =>
        {| outcome_of := Raise e; object_of := obj1; state_of := s1 |}
    end
  else
    {| outcome_of := Ok tt;
       object_of :=
         {| Model.eu_vat_country := None;
            Model.eu_vat_number := Model.eu_vat_number obj;
            Model.eu_vat_rate := None |};
       state_of := s |}.

(** The property [should_charge_eu_vat] that [init_app] puts on the
    model: [self.should_charge_vat(s.eu_vat_country, s.eu_vat_number)]. *)
Definition should_charge_eu_vat (options : Options) (obj : Model.t) : pyval :=
  should_charge_vat options (Model.eu_vat_country obj)
    (of_opt_str (Model.eu_vat_number obj)).

(** What [on_invoice] leaves behind: the invoice, the process state and
    the exceptions it passed to [current_app.logger.error]. *)
Record Issued : Type := {
  issue_outcome : outcome unit;
  issue_invoice : Invoice.t;
  issue_logged : list exn;
  issue_state : State;
}.

(** [EUVATFeature.on_invoice(sender)]. [mention_message] is the value
    of the option [invoice_customer_mention_message] as a string, and
    [py_format template number] is [template.format(number=number)],
    which raises when the template has a field that is not [number].
    [except Exception] catches every exception of [exn]. *)
Definition on_invoice (py_round : float -> Z -> float)
    (py_format : string -> string -> outcome string)
    (mention_message : option string) (w : World)
    (sender : Invoice.t) (s : State) : Issued :=
  if truthy (is_eu_country (Invoice.country sender)) then
    let sender :=
      Invoice.set_eu_vat_number (Invoice.customer_eu_vat_number sender)
        (Invoice.set_is_eu_country true sender) in
    let tried : Invoice.t * list exn * State :=
      match get_exchange_rate py_round w (default "" (Invoice.country sender))
              (Invoice.currency sender) s with
      | (Ok rate, s1) =>
          let sender := Invoice.set_eu_exchange_rate (Some rate) sender in
          (match Invoice.tax_amount sender with
           | Some tax =>
               if float_truthy tax
               then Invoice.set_eu_vat_amount (tax * rate)%float sender
               else sender
           | None => sender
           end, [], s1)
      | (Raise e, s1) =>
          (Invoice.set_eu_exchange_rate None sender, [e], s1)
      end in
    let '(sender, logged, s1) := tried in
    if truthy (of_opt_str (Invoice.eu_vat_number sender))
       && truthy (of_opt_str mention_message) then
      match py_format (default "" mention_message)
                      (default "" (Invoice.eu_vat_number sender)) with
      | Ok text =>
          {| issue_outcome := Ok tt;
             issue_invoice := Invoice.set_customer_special_mention text sender;
             issue_logged := logged;
             issue_state := s1 |}
      | Raise e =>
          {| issue_outcome := Raise e; issue_invoice := sender;
             issue_logged := logged; issue_state := s1 |}
      end
    else
      {| issue_outcome := Ok tt; issue_invoice := sender;
         issue_logged := logged; issue_state := s1 |}
  else
    {| issue_outcome := Ok tt;
       issue_invoice := Invoice.set_is_eu_country false sender;
       issue_logged := [];
       issue_state := s |}.

(** ** Further vocabulary *)

(** A computation respects a relation between states when every run of
    it relates the state before to the state after. *)
Definition respects (R : State -> State -> Prop) {A} (m : M A) : Prop :=
  forall s, R s (m s).2.

(** The relations used below: a cache is left as it is; the entries of
    the VAT-rate cache are left as they are, all of them or all but the
    one of a country. *)
Definition same_snapshots (s s' : State) : Prop :=
  _exchange_rates_cache s' = _exchange_rates_cache s.

Definition same_vat_rates (s s' : State) : Prop :=
  _vat_rates_cache s' = _vat_rates_cache s.

Definition same_calls (s s' : State) : Prop :=
  calls s' = calls s.

Definition vat_rates_kept (s s' : State) : Prop :=
  forall country entry,
    _vat_rates_cache s !! country = Some entry ->
    _vat_rates_cache s' !! country = Some entry.

Definition vat_rates_kept_but (country_code : string) (s s' : State) : Prop :=
  forall country,
    country <> country_code ->
    _vat_rates_cache s' !! country = _vat_rates_cache s !! country.

(** The state is left as it is. *)
Definition same_state (s s' : State) : Prop := s' = s.

(** Entries are added to the VAT-rate cache only for accepted codes. *)
Definition only_accepted_added (s s' : State) : Prop :=
  forall country,
    is_Some (_vat_rates_cache s' !! country) ->
    is_Some (_vat_rates_cache s !! country) \/ eu_member country = true.

(** The requests of a run are among [allowed], in that order. *)
Definition calls_among (allowed : list Call) (s s' : State) : Prop :=
  exists made : list Call, calls s' = (calls s ++ made)%list /\ sublist made allowed.

(** The entry that the loop of [get_vat_rate] builds from a response. *)
Definition vat_entry (rates : list (string * float)) : gmap string float :=
  fold_left (fun entry rate => <[lower rate.1 := rate.2]> entry) rates ∅.

(** The rate of the last element of the feed for a currency. *)
Definition last_rate (currency : string) (cubes : list (string * float)) : option float :=
  fold_left (fun found cube => if String.eqb cube.1 currency then Some cube.2 else found)
            cubes None.

(** The label [get_vat_rate] looks up for a [rate_type] argument. *)
Definition rate_label (options : Options) (rate_type : option string) : string :=
  lower (if truthy (of_opt_str rate_type) then default "" rate_type
         else vat_rate options).

(** A template with the single field [number], enough for the default
    message: the text before [{number}], the number, the text after. A
    template without the field is returned as it is. *)
Fixpoint fill_number (template number : string) : string :=
  match template with
  | EmptyString => EmptyString
  | String c rest =>
      if String.prefix "{number}" template
      then number ++ substring 8 (String.length template - 8) template
      else String c (fill_number rest number)
  end.

Definition a_format (template number : string) : outcome string :=
  Ok (fill_number template number).

(** A customer record and an invoice to run the feature on. *)
Definition a_customer : Model.t :=
  {| Model.eu_vat_country := Some "IE";
     Model.eu_vat_number := Some "IE1234567";
     Model.eu_vat_rate := Some 23%float |}.

Definition an_invoice (country : string) : Invoice.t :=
  {| Invoice.country := Some country;
     Invoice.currency := "USD";
     Invoice.tax_amount := Some 20%float;
     Invoice.customer_eu_vat_number := Some "DK12345678";
     Invoice.is_eu_country := None;
     Invoice.eu_vat_number := None;
     Invoice.eu_exchange_rate := Some 3%float;
     Invoice.eu_vat_amount := Some 60%float;
     Invoice.customer_special_mention := None |}.

(** ** Reasoning about computations *)

Section MonadLemmas.
Context {A B : Type}.
Implicit Types (m : M A) (f : A -> M B) (s : State).

Lemma bind_Ok m f s a s1 : m s = (Ok a, s1) -> bind m f s = f a s1.
Proof. unfold bind. intros ->. reflexivity. Qed.

Lemma bind_Raise m f s e s1 : m s = (Raise e, s1) -> bind m f s = (Raise e, s1).
Proof. unfold bind. intros ->. reflexivity. Qed.

Lemma bind_Ok_inv m f s b s' :
  bind m f s = (Ok b, s') ->
  exists a s1, m s = (Ok a, s1) /\ f a s1 = (Ok b, s').
Proof.
  unfold bind. destruct (m s) as [[a | e] s1]; intros H.
  - exists a, s1. split; [reflexivity | exact H].
  - discriminate H.
Qed.

End MonadLemmas.

(** ** Membership in the European Union *)

Lemma truthy_is_eu_country (c : string) :
  truthy (is_eu_country (Some c)) = eu_member c.
Proof.
  unfold is_eu_country, py_and, eu_member. simpl.
  destruct (String.eqb_spec c "") as [-> | Hne]; simpl.
  - reflexivity.
  - reflexivity.
Qed.

Lemma is_eu_country_None : is_eu_country None = PNone.
Proof. reflexivity. Qed.

Lemma opt_str_eqb_eq (a b : option string) : opt_str_eqb a b = true <-> a = b.
Proof.
  destruct a as [x |], b as [y |]; simpl; try (split; [discriminate | congruence]).
  - rewrite String.eqb_eq. split; congruence.
  - split; reflexivity.
Qed.

(** A key of the table is its own upper-case form, so it passes the
    membership test. *)
Lemma table_keys_upper (c dest : string) :
  EU_COUNTRIES !! c = Some dest -> eu_member c = true.
Proof.
  intros H. apply elem_of_list_to_map_2 in H.
  unfold eu_member.
  repeat (apply elem_of_cons in H as [H | H]; [inversion H; subst; reflexivity |]).
  apply elem_of_nil in H. destruct H.
Qed.

(** ** The charging policy *)

(** The value [should_charge_vat] returns: a [bool] for an EU country,
    and otherwise the falsy value that [is_eu_country] returned. *)
Lemma should_charge_vat_value (options : Options)
    (country_code : option string) (eu_vat_number : pyval) :
  should_charge_vat options country_code eu_vat_number =
  if truthy (is_eu_country country_code)
  then PBool (opt_str_eqb (own_country options) country_code
              || negb (truthy eu_vat_number))
  else is_eu_country country_code.
Proof.
  unfold should_charge_vat, py_and, py_or, py_not.
  destruct (truthy (is_eu_country country_code)); [| reflexivity].
  cbn [truthy].
  destruct (opt_str_eqb (own_country options) country_code); reflexivity.
Qed.

(** C1. [should_charge_vat] returns [True] exactly when the country code
    is an EU country and either the seller's own country equals it or the
    VAT number argument is falsy (no validated number); no other truthy
    value is ever returned. In particular it is [True] for a buyer of the
    seller's own EU country whatever the VAT number, and [False] for an
    EU buyer of another country with a validated number. *)
Theorem should_charge_vat_policy (options : Options)
    (country_code : option string) (eu_vat_number : pyval) :
  (should_charge_vat options country_code eu_vat_number = PBool true <->
     truthy (is_eu_country country_code) = true /\
     (own_country options = country_code \/ truthy eu_vat_number = false)) /\
  (truthy (should_charge_vat options country_code eu_vat_number) = true <->
     should_charge_vat options country_code eu_vat_number = PBool true) /\
  (truthy (is_eu_country country_code) = true ->
     own_country options = country_code ->
     should_charge_vat options country_code eu_vat_number = PBool true) /\
  (truthy (is_eu_country country_code) = true ->
     own_country options <> country_code ->
     truthy eu_vat_number = true ->
     should_charge_vat options country_code eu_vat_number = PBool false).
Proof.
  rewrite should_charge_vat_value.
  pose proof (opt_str_eqb_eq (own_country options) country_code) as Heq.
  destruct (truthy (is_eu_country country_code)) eqn:Heu.
  - destruct (opt_str_eqb (own_country options) country_code) eqn:Hown;
      destruct (truthy eu_vat_number) eqn:Hvn; cbn [orb negb truthy];
      split_and!; try tauto.
    + split; [discriminate |].
      intros [_ [E | E]]; [apply Heq in E |]; discriminate.
    + split; discriminate.
    + intros _ E. apply Heq in E. discriminate.
  - split_and!; try discriminate; try tauto.
    + split; [intros E; rewrite E in Heu | intros [E _]]; discriminate.
    + rewrite Heu. split; [| intros E; rewrite E in Heu]; discriminate.
Qed.


(** An Irish buyer with a validated number is not charged by a French
    seller. *)
Lemma should_charge_vat_policy_witness :
  should_charge_vat (seller "FR") (Some "IE") (PBool true) = PBool false.
Proof.
  apply (should_charge_vat_policy (seller "FR") (Some "IE") (PBool true)).
  - reflexivity.
  - discriminate.
  - reflexivity.
Defined.

(** ** Rejection of countries outside the Union *)

(** C2 (amended). A country code that the membership test refuses (its
    upper-case form is not a key of the table; the empty code is one) is
    rejected by [get_vat_rate], [get_exchange_rate] and [check] with the
    error 404 "Not an EU country", before any cache is touched and any
    request is sent. *)
Theorem non_eu_country_rejected (py_round : float -> Z -> float)
    (options : Options) (w : World) (country_code : string) (s : State) :
  eu_member country_code = false ->
  (forall rate_type,
     get_vat_rate options w country_code rate_type s = (not_eu_country, s)) /\
  (forall src_currency,
     get_exchange_rate py_round w country_code src_currency s = (not_eu_country, s)) /\
  (forall vat_number amount src_currency,
     check py_round options w country_code vat_number amount src_currency s
     = (not_eu_country, s)).
Proof.
  intros Hne. split_and!; intros;
    unfold get_vat_rate, get_exchange_rate, check;
    rewrite truthy_is_eu_country, Hne; reflexivity.
Qed.

Lemma non_eu_country_rejected_witness :
  check round_half_even (seller "FR") a_world "US" (Some "US123") (Some 10%float) "USD"
    initial_state
  = (not_eu_country, initial_state).
Proof.
  apply (non_eu_country_rejected round_half_even (seller "FR") a_world "US" initial_state).
  reflexivity.
Defined.

(** [validate_vat_number] makes no membership test: a number with the
    prefix [XX] goes to the VIES service and its answer is returned. And
    a code that is not a key of the table can still pass the membership
    test: [get_vat_rate] asks the TIC service about [fr]. *)
Lemma membership_test_not_everywhere :
  EU_COUNTRIES !! "XX" = None /\
  validate_vat_number a_world "XX123" initial_state
  = (Ok true,
     {| _exchange_rates_cache := ∅; _vat_rates_cache := ∅;
        calls := [CallVIES "XX" "123"] |}) /\
  EU_COUNTRIES !! "fr" = None /\
  (get_vat_rate defaults a_world "fr" None initial_state).1 = Ok (Some 20%float) /\
  calls (get_vat_rate defaults a_world "fr" None initial_state).2
  = [CallTIC "fr" 736330].
Proof. split_and!; vm_compute; reflexivity. Qed.

(** ** VAT rates: the swallowed fault *)

(** C3. For an EU country absent from the VAT-rate cache whose TIC
    request ends in a [WebFault], [get_vat_rate] swallows the fault,
    stores an empty entry for the country and then fails on the unbound
    local [r]: the caller sees [UnboundLocalError], not a
    [ServiceError]. *)
Theorem get_vat_rate_fault_unbound (options : Options) (w : World)
    (country_code : string) (rate_type : option string) (s : State) :
  eu_member country_code = true ->
  _vat_rates_cache s !! country_code = None ->
  tic_getRates w country_code (today w) = Raise WebFault ->
  get_vat_rate options w country_code rate_type s
  = (Raise (UnboundLocalError "r"),
     {| _exchange_rates_cache := _exchange_rates_cache s;
        _vat_rates_cache := <[country_code := ∅]> (_vat_rates_cache s);
        calls := calls s ++ [CallTIC country_code (today w)] |}).
Proof.
  intros Heu Hmiss Hfault.
  unfold get_vat_rate. rewrite truthy_is_eu_country, Heu. cbn [negb].
  unfold bind at 1. cbn [gets].
  unfold py_in. rewrite Hmiss. cbn [negb].
  unfold bind at 1. unfold bind at 1.
  unfold except_WebFault, request, bind at 1. rewrite Hfault.
  reflexivity.
Qed.

Lemma get_vat_rate_fault_unbound_witness :
  get_vat_rate defaults a_failing_world "FR" None initial_state
  = (Raise (UnboundLocalError "r"),
     {| _exchange_rates_cache := ∅;
        _vat_rates_cache := {["FR" := ∅]};
        calls := [CallTIC "FR" 736330] |}).
Proof.
  apply (get_vat_rate_fault_unbound defaults a_failing_world "FR" None initial_state);
    reflexivity.
Defined.

(** After the crash the empty entry stays in the cache: the next lookup
    for the country sends no request and answers [None]. *)
Lemma get_vat_rate_after_fault (options : Options) (w : World)
    (country_code : string) (rate_type : option string) (s : State) :
  eu_member country_code = true ->
  _vat_rates_cache s !! country_code = Some ∅ ->
  get_vat_rate options w country_code rate_type s = (Ok None, s).
Proof.
  intros Heu Hhit.
  unfold get_vat_rate. rewrite truthy_is_eu_country, Heu. cbn [negb].
  unfold bind, gets, py_in, subscript. rewrite Hhit. cbn.
  rewrite Hhit. cbn. rewrite lookup_empty. reflexivity.
Qed.

(** ** VAT number validation *)

(** C8. A VAT number shorter than three characters is rejected with the
    error 400 "VAT number too short"; the state is untouched, so no
    request was sent. *)
Theorem validate_vat_number_too_short (w : World) (vat_number : string) (s : State) :
  (String.length vat_number < 3)%nat ->
  validate_vat_number w vat_number s
  = (Raise (ServiceError "VAT number too short" 400), s).
Proof.
  intros Hlen. unfold validate_vat_number.
  destruct (Nat.ltb_spec (String.length vat_number) 3) as [_ | Hge]; [reflexivity | lia].
Qed.

Lemma validate_vat_number_too_short_witness :
  validate_vat_number a_world "XX" initial_state
  = (Raise (ServiceError "VAT number too short" 400), initial_state).
Proof.
  apply (validate_vat_number_too_short a_world "XX" initial_state).
  simpl. lia.
Defined.

(** C9. For a VAT number of at least three characters one request goes
    to VIES with the upper-cased two-character prefix and the rest of the
    number. A [WebFault] is turned into the answer [False]; when the
    service responds, its validity flag is returned. *)
Theorem validate_vat_number_answer (w : World) (vat_number : string) (s : State) :
  (3 <= String.length vat_number)%nat ->
  let countryCode := upper (slice_0_2 vat_number) in
  let vatNumber := slice_2_end vat_number in
  (vies_checkVat w countryCode vatNumber = Raise WebFault ->
   validate_vat_number w vat_number s
   = (Ok false, logged (CallVIES countryCode vatNumber) s)) /\
  (forall valid : bool,
   vies_checkVat w countryCode vatNumber = Ok valid ->
   validate_vat_number w vat_number s
   = (Ok valid, logged (CallVIES countryCode vatNumber) s)).
Proof.
  intros Hlen countryCode vatNumber.
  unfold validate_vat_number.
  destruct (Nat.ltb_spec (String.length vat_number) 3) as [Hlt | _]; [lia |].
  unfold except_WebFault, request. fold countryCode vatNumber.
  split; [intros -> | intros valid ->]; reflexivity.
Qed.

Lemma validate_vat_number_answer_witness :
  validate_vat_number a_failing_world "fr12345" initial_state
  = (Ok false, logged (CallVIES "FR" "12345") initial_state).
Proof.
  refine (proj1 (validate_vat_number_answer a_failing_world "fr12345" initial_state _) _).
  - simpl. lia.
  - reflexivity.
Defined.

(** Any other exception of the VIES request reaches the caller. *)
Lemma validate_vat_number_propagates (w : World) (vat_number : string) (s : State) (e : exn) :
  (3 <= String.length vat_number)%nat ->
  e <> WebFault ->
  vies_checkVat w (upper (slice_0_2 vat_number)) (slice_2_end vat_number) = Raise e ->
  validate_vat_number w vat_number s
  = (Raise e, logged (CallVIES (upper (slice_0_2 vat_number)) (slice_2_end vat_number)) s).
Proof.
  intros Hlen Hne Hans. unfold validate_vat_number.
  destruct (Nat.ltb_spec (String.length vat_number) 3) as [Hlt | _]; [lia |].
  unfold except_WebFault, request. rewrite Hans.
  destruct e; try reflexivity. contradiction.
Qed.

(** ** Exchange rates *)

(** What [get_exchange_rate] does once the country code is known to be a
    key of the table and the snapshot is at hand. *)
Lemma get_exchange_rate_fetched (py_round : float -> Z -> float) (w : World)
    (country_code src_currency dest_currency : string) (s : State) :
  EU_COUNTRIES !! country_code = Some dest_currency ->
  get_exchange_rate py_round w country_code src_currency s
  = bind (fetch_exchange_rates w) (fun rates =>
      if String.eqb src_currency dest_currency then ret 1%float
      else if String.eqb src_currency "EUR" then subscript rates dest_currency
      else if negb (py_in src_currency rates) then
        raise (ServiceError "Can only use a currency listed in the ECB rates" 400)
      else
        src_rate <- subscript rates src_currency ;;
        inverse <- py_div 1%float src_rate ;;
        dest_rate <- subscript rates dest_currency ;;
        ret (py_round (inverse * dest_rate)%float 5)) s.
Proof.
  intros Hkey. unfold get_exchange_rate.
  rewrite truthy_is_eu_country, (table_keys_upper _ _ Hkey). cbn [negb].
  unfold bind at 1. unfold subscript at 1. rewrite Hkey. reflexivity.
Qed.

(** C5 (amended). Let the country code be a key of the table, the
    snapshot be available, and the source currency be neither [EUR] nor
    the destination currency. If the snapshot lists the source currency
    with a non-zero rate and also lists the destination currency,
    [get_exchange_rate] returns [round(1 / src_rate * dest_rate, 5)]; if
    the snapshot does not list the source currency, it raises the error
    400 "Can only use a currency listed in the ECB rates". *)
Theorem get_exchange_rate_cross (py_round : float -> Z -> float) (w : World)
    (country_code src_currency dest_currency : string)
    (rates : gmap string float) (s s1 : State) :
  EU_COUNTRIES !! country_code = Some dest_currency ->
  fetch_exchange_rates w s = (Ok rates, s1) ->
  src_currency <> "EUR" ->
  src_currency <> dest_currency ->
  (forall src_rate dest_rate : float,
     rates !! src_currency = Some src_rate ->
     PrimFloat.eqb src_rate 0%float = false ->
     rates !! dest_currency = Some dest_rate ->
     get_exchange_rate py_round w country_code src_currency s
     = (Ok (py_round (1 / src_rate * dest_rate)%float 5), s1)) /\
  (rates !! src_currency = None ->
     get_exchange_rate py_round w country_code src_currency s
     = (Raise (ServiceError "Can only use a currency listed in the ECB rates" 400), s1)).
Proof.
  intros Hkey Hfetch Heur Hdest.
  rewrite (get_exchange_rate_fetched _ _ _ _ _ _ Hkey).
  rewrite (bind_Ok _ _ _ _ _ Hfetch).
  apply String.eqb_neq in Heur, Hdest. rewrite Heur, Hdest.
  unfold py_in. split.
  - intros src_rate dest_rate Hsrc Hnz Hdst. rewrite Hsrc. cbn [negb].
    unfold bind, subscript. rewrite Hsrc. cbn [ret].
    unfold py_div. rewrite Hnz. cbn [ret]. rewrite Hdst. reflexivity.
  - intros Hsrc. rewrite Hsrc. reflexivity.
Qed.

(** A Danish buyer invoiced in US dollars: 1 / 1.25 * 7.5 = 6. *)
Lemma get_exchange_rate_cross_witness :
  get_exchange_rate round_half_even a_world "DK" "USD" initial_state
  = (Ok (round_half_even (1 / 1.25 * 7.5)%float 5),
     {| _exchange_rates_cache := {[736330 := parse_rates
          [("USD", 1.25%float); ("GBP", 0.875%float); ("DKK", 7.5%float)] ]};
        _vat_rates_cache := ∅;
        calls := [CallECB] |}).
Proof.
  refine (proj1 (get_exchange_rate_cross round_half_even a_world "DK" "USD" "DKK"
            (parse_rates [("USD", 1.25%float); ("GBP", 0.875%float); ("DKK", 7.5%float)])
            initial_state _ _ _ _ _) 1.25%float 7.5%float _ _ _);
    try reflexivity; discriminate.
Defined.

(** The snapshot of [a_world] has no Croatian kuna: for a Croatian buyer
    invoiced in US dollars the lookup of the destination rate fails with
    [KeyError], although the source currency is listed. *)
Lemma get_exchange_rate_dest_unlisted :
  EU_COUNTRIES !! "HR" = Some "HRK" /\
  (parse_rates [("USD", 1.25%float); ("GBP", 0.875%float); ("DKK", 7.5%float)])
    !! "USD" = Some 1.25%float /\
  (get_exchange_rate round_half_even a_world "HR" "USD" initial_state).1
  = Raise (KeyError "HRK").
Proof. split_and!; vm_compute; reflexivity. Qed.

(** With [round_half_even] the code's [1 / s * d] and the quotient [d / s]
    can round to different fifth decimals: for [s = 320] and [d = 3] the
    product lies just above 0.009375 and the quotient just below. *)
Example reciprocal_product_is_not_quotient :
  round_half_even (1 / 320 * 3)%float 5 = 0x1.335d249e44fa0p-7%float /\
  round_half_even (3 / 320)%float 5 = 0x1.330941c8216c6p-7%float.
Proof. split; vm_compute; reflexivity. Qed.

(** C6 (amended). When the country code is a key of the table and the
    source currency is the currency the table gives for it,
    [get_exchange_rate] first obtains the snapshot, from the cache or from
    the ECB, and then returns exactly [1.0] whatever the snapshot
    contains; if obtaining the snapshot raises, that exception is
    raised instead. *)
Theorem get_exchange_rate_same_currency (py_round : float -> Z -> float) (w : World)
    (country_code dest_currency : string) (s s1 : State) :
  EU_COUNTRIES !! country_code = Some dest_currency ->
  (forall rates,
     fetch_exchange_rates w s = (Ok rates, s1) ->
     get_exchange_rate py_round w country_code dest_currency s = (Ok 1%float, s1)) /\
  (forall e,
     fetch_exchange_rates w s = (Raise e, s1) ->
     get_exchange_rate py_round w country_code dest_currency s = (Raise e, s1)).
Proof.
  intros Hkey. rewrite (get_exchange_rate_fetched _ _ _ _ _ _ Hkey).
  split.
  - intros rates Hfetch. rewrite (bind_Ok _ _ _ _ _ Hfetch).
    rewrite String.eqb_refl. reflexivity.
  - intros e Hfetch. apply bind_Raise. exact Hfetch.
Qed.

Lemma get_exchange_rate_same_currency_witness :
  get_exchange_rate round_half_even a_world "DK" "DKK" initial_state
  = (Ok 1%float,
     {| _exchange_rates_cache := {[736330 := parse_rates
          [("USD", 1.25%float); ("GBP", 0.875%float); ("DKK", 7.5%float)] ]};
        _vat_rates_cache := ∅;
        calls := [CallECB] |}).
Proof.
  refine (proj1 (get_exchange_rate_same_currency round_half_even a_world "DK" "DKK"
            initial_state _ _)
            (parse_rates [("USD", 1.25%float); ("GBP", 0.875%float); ("DKK", 7.5%float)]) _);
    reflexivity.
Defined.

(** When the feed cannot be downloaded, a French buyer invoiced in euros
    gets the transport's exception, not [1.0]. *)
Lemma get_exchange_rate_same_currency_fetch_fails :
  EU_COUNTRIES !! "FR" = Some "EUR" /\
  get_exchange_rate round_half_even a_failing_world "FR" "EUR" initial_state
  = (Raise (Failure "ConnectionError"), logged CallECB initial_state).
Proof. split; vm_compute; reflexivity. Qed.

(** ** Country codes that are not in upper case *)

(** C10 (amended). A country code that passes the membership test
    without being a key of the table (an EU code not written in upper
    case) makes [get_exchange_rate] raise [KeyError] on the table lookup,
    before any request. [check] validates the VAT number first: if that
    step raises, its exception is what the caller sees; otherwise, and
    always when no VAT number is given, [check] raises the same
    [KeyError]. Neither method returns a result. *)
Theorem lowercase_country_code_KeyError (py_round : float -> Z -> float)
    (options : Options) (w : World) (country_code : string) :
  eu_member country_code = true ->
  EU_COUNTRIES !! country_code = None ->
  (forall src_currency s,
     get_exchange_rate py_round w country_code src_currency s
     = (Raise (KeyError country_code), s)) /\
  (forall vat_number amount src_currency s,
     truthy (of_opt_str vat_number) = false ->
     check py_round options w country_code vat_number amount src_currency s
     = (Raise (KeyError country_code), s)) /\
  (forall vat_number amount src_currency s valid s1,
     truthy (PStr vat_number) = true ->
     validate_vat_number w vat_number s = (Ok valid, s1) ->
     check py_round options w country_code (Some vat_number) amount src_currency s
     = (Raise (KeyError country_code), s1)) /\
  (forall vat_number amount src_currency s e s1,
     truthy (PStr vat_number) = true ->
     validate_vat_number w vat_number s = (Raise e, s1) ->
     check py_round options w country_code (Some vat_number) amount src_currency s
     = (Raise e, s1)).
Proof.
  intros Heu Hkey. split_and!.
  - intros src_currency s. unfold get_exchange_rate.
    rewrite truthy_is_eu_country, Heu. cbn [negb].
    unfold bind, subscript. rewrite Hkey. reflexivity.
  - intros vat_number amount src_currency s Hvn. unfold check.
    rewrite truthy_is_eu_country, Heu. cbn [negb]. rewrite Hvn.
    unfold bind at 1. cbn [ret].
    unfold bind, subscript. rewrite Hkey. reflexivity.
  - intros vat_number amount src_currency s valid s1 Hvn Hval. unfold check.
    rewrite truthy_is_eu_country, Heu. cbn [negb of_opt_str]. rewrite Hvn.
    change (default "" (Some vat_number)) with vat_number.
    unfold bind at 1. rewrite Hval.
    unfold bind, subscript. rewrite Hkey. reflexivity.
  - intros vat_number amount src_currency s e s1 Hvn Hval. unfold check.
    rewrite truthy_is_eu_country, Heu. cbn [negb of_opt_str]. rewrite Hvn.
    change (default "" (Some vat_number)) with vat_number.
    unfold bind at 1. rewrite Hval. reflexivity.
Qed.

Lemma lowercase_country_code_KeyError_witness :
  get_exchange_rate round_half_even a_world "fr" "EUR" initial_state
  = (Raise (KeyError "fr"), initial_state) /\
  check round_half_even (seller "FR") a_world "fr" None (Some 100%float) "EUR" initial_state
  = (Raise (KeyError "fr"), initial_state).
Proof.
  pose proof (lowercase_country_code_KeyError round_half_even (seller "FR") a_world "fr"
                eq_refl eq_refl) as (Hrate & Hcheck & _).
  split.
  - apply Hrate.
  - apply Hcheck. reflexivity.
Defined.

(** With a VAT number of one character, [check] on the code [fr] ends in
    the client error of the validation, not in [KeyError]. *)
Lemma lowercase_country_code_short_number :
  eu_member "fr" = true /\
  EU_COUNTRIES !! "fr" = None /\
  check round_half_even (seller "FR") a_world "fr" (Some "X") (Some 100%float) "EUR"
    initial_state
  = (Raise (ServiceError "VAT number too short" 400), initial_state).
Proof. split_and!; vm_compute; reflexivity. Qed.

(** ** The pricing calculator *)

(** The fields of the result that do not depend on the amount. *)
Lemma check_Ok_inv (py_round : float -> Z -> float) (options : Options) (w : World)
    (country_code : string) (vat_number : option string) (amount : option float)
    (src_currency : string) (s s' : State) (o : PricingResult) :
  check py_round options w country_code vat_number amount src_currency s = (Ok o, s') ->
  eu_member country_code = true /\
  o_country o = country_code /\
  EU_COUNTRIES !! country_code = Some (o_currency o) /\
  o_vat_number o = vat_number /\
  o_src_currency o = src_currency /\
  o_should_charge_vat o
  = should_charge_vat options (Some country_code)
      (py_and (of_opt_str vat_number) (PBool (o_is_vat_number_valid o))) /\
  (exists sa sb,
     get_vat_rate options w country_code None sa = (Ok (o_vat_rate o), sb) /\
     get_exchange_rate py_round w country_code src_currency sb
     = (Ok (o_exchange_rate o), s')) /\
  match amount with
  | Some a =>
      if float_truthy a then
        exists rate, effective_rate o = Some rate /\
          o_amounts o = Some
            {| amount := a;
               vat_amount := py_round (a * rate)%float 2;
               amount_with_vat := (a + a * rate)%float;
               exchanged_amount_with_vat :=
                 py_round ((a + a * rate) * o_exchange_rate o)%float 2 |}
      else o_amounts o = None
  | None => o_amounts o = None
  end.
Proof.
  unfold check. rewrite truthy_is_eu_country.
  destruct (eu_member country_code); cbn [negb]; [| discriminate].
  intros H.
  apply bind_Ok_inv in H as (valid & sa & _ & H).
  apply bind_Ok_inv in H as (currency & sa' & Hcur & H).
  unfold subscript in Hcur.
  destruct (EU_COUNTRIES !! country_code) as [dest |] eqn:Hkey; [| discriminate].
  injection Hcur as <- <-.
  apply bind_Ok_inv in H as (vat_rate & sb & Hvat & H).
  apply bind_Ok_inv in H as (exchange_rate & sc & Hexch & H).
  cbv zeta in H.
  destruct amount as [a |].
  - destruct (float_truthy a) eqn:Ha.
    + apply bind_Ok_inv in H as (rate & sd & Hrate & H).
      injection H as <- <-. cbn.
      assert (sd = sc /\
              (if truthy (should_charge_vat options (Some country_code)
                            (py_and (of_opt_str vat_number) (PBool valid)))
               then (fun v => (v / 100)%float) <$> vat_rate
               else Some 0%float) = Some rate) as [-> Hrate'].
      { destruct (truthy _); [destruct vat_rate as [v |] |];
          unfold ret, raise in Hrate; try discriminate;
          injection Hrate as <- <-; split; reflexivity. }
      split_and!; try reflexivity.
      * exists sa, sb. split; assumption.
      * exists rate. split; [exact Hrate' | reflexivity].
    + injection H as <- <-. cbn. split_and!; try reflexivity.
      exists sa, sb. split; assumption.
  - injection H as <- <-. cbn. split_and!; try reflexivity.
    exists sa, sb. split; assumption.
Qed.

(** C4 (amended). When [check] returns a result for a supplied amount
    that is not zero, the result holds
    [vat_amount = round(amount * rate, 2)],
    [amount_with_vat = amount + amount * rate] and
    [exchanged_amount_with_vat = round((amount + amount * rate) * exchange_rate, 2)],
    where [rate] is the VAT rate of the result divided by 100 when
    [should_charge_vat] is true, and 0 otherwise. *)
Theorem check_amounts (py_round : float -> Z -> float) (options : Options) (w : World)
    (country_code : string) (vat_number : option string) (a : float)
    (src_currency : string) (s s' : State) (o : PricingResult) :
  check py_round options w country_code vat_number (Some a) src_currency s = (Ok o, s') ->
  float_truthy a = true ->
  exists rate,
    effective_rate o = Some rate /\
    o_amounts o = Some
      {| amount := a;
         vat_amount := py_round (a * rate)%float 2;
         amount_with_vat := (a + a * rate)%float;
         exchanged_amount_with_vat :=
           py_round ((a + a * rate) * o_exchange_rate o)%float 2 |}.
Proof.
  intros Hcheck Ha.
  apply check_Ok_inv in Hcheck as (_ & _ & _ & _ & _ & _ & _ & Hamounts).
  rewrite Ha in Hamounts. exact Hamounts.
Qed.

Lemma check_amounts_witness :
  exists rate,
    effective_rate irish_buyer = Some rate /\
    o_amounts irish_buyer = Some
      {| amount := 50%float;
         vat_amount := round_half_even (50 * rate)%float 2;
         amount_with_vat := (50 + 50 * rate)%float;
         exchanged_amount_with_vat :=
           round_half_even ((50 + 50 * rate) * o_exchange_rate irish_buyer)%float 2 |}.
Proof.
  apply (check_amounts round_half_even (seller "FR") a_world "IE" (Some "IE1234567")
           50%float "EUR" initial_state
           (check round_half_even (seller "FR") a_world "IE" (Some "IE1234567")
              (Some 50%float) "EUR" initial_state).2
           irish_buyer);
    vm_compute; reflexivity.
Defined.

(** A French buyer without VAT number and a supplied amount of zero: the
    result comes back without the four amount keys. *)
Lemma check_zero_amount :
  (check round_half_even (seller "FR") a_world "FR" None (Some 0%float) "EUR"
     initial_state).1
  = Ok {| o_country := "FR";
          o_currency := "EUR";
          o_vat_rate := Some 20%float;
          o_vat_number := None;
          o_is_vat_number_valid := false;
          o_should_charge_vat := PBool true;
          o_exchange_rate := 1%float;
          o_src_currency := "EUR";
          o_amounts := None |}.
Proof. vm_compute. reflexivity. Qed.

(** The first scenario of the specification: a French buyer without VAT
    number, 100 euros, standard rate 20: VAT is 20 and the total 120. *)
Example check_french_buyer :
  (check round_half_even (seller "DE") a_world "FR" None (Some 100%float) "EUR"
     initial_state).1
  = Ok {| o_country := "FR";
          o_currency := "EUR";
          o_vat_rate := Some 20%float;
          o_vat_number := None;
          o_is_vat_number_valid := false;
          o_should_charge_vat := PBool true;
          o_exchange_rate := 1%float;
          o_src_currency := "EUR";
          o_amounts := Some {| amount := 100%float;
                               vat_amount := 20%float;
                               amount_with_vat := 120%float;
                               exchanged_amount_with_vat := 120%float |} |}.
Proof. vm_compute. reflexivity. Qed.

(** ** The snapshot cache *)

Lemma fold_rates_EUR (cubes : list (string * float)) (rates : gmap string float) (x : float) :
  rates !! "EUR" = Some x ->
  fold_left (fun rates cube => <[cube.1 := cube.2]> rates) cubes rates !! "EUR"
  = Some (fold_left (fun rate cube => if String.eqb cube.1 "EUR" then cube.2 else rate)
                    cubes x).
Proof.
  revert rates x. induction cubes as [| [currency rate] cubes IH]; intros rates x Hx.
  - exact Hx.
  - cbn [fold_left fst snd]. apply IH.
    destruct (String.eqb_spec currency "EUR") as [-> | Hne].
    + apply lookup_insert_eq.
    + rewrite lookup_insert_ne by exact Hne. exact Hx.
Qed.

Lemma parse_rates_EUR (cubes : list (string * float)) :
  parse_rates cubes !! "EUR" = Some (eur_entry cubes).
Proof. apply fold_rates_EUR. apply lookup_singleton_eq. Qed.

Lemma eur_entry_unlisted (cubes : list (string * float)) :
  Forall (fun cube => cube.1 <> "EUR") cubes -> eur_entry cubes = 1%float.
Proof.
  unfold eur_entry. generalize 1%float.
  induction cubes as [| [currency rate] cubes IH]; intros x Hall.
  - reflexivity.
  - inversion Hall as [| ? ? Hne Hrest]; subst. cbn [fold_left fst snd] in *.
    apply String.eqb_neq in Hne. rewrite Hne. apply IH. exact Hrest.
Qed.

Lemma stable_refl (s : State) : stable s s.
Proof. split; [intros d rates H; exact H | intros H; exact H]. Qed.

Lemma stable_trans (s1 s2 s3 : State) : stable s1 s2 -> stable s2 s3 -> stable s1 s3.
Proof.
  intros [K12 P12] [K23 P23]. split.
  - intros d rates H. apply K23, K12, H.
  - intros H. apply P23, P12, H.
Qed.

Lemma stable_same_cache (s s' : State) :
  _exchange_rates_cache s' = _exchange_rates_cache s -> stable s s'.
Proof.
  intros E. split.
  - intros d rates H. rewrite E. exact H.
  - intros P d rates H. rewrite E in H. exact (P d rates H).
Qed.

Lemma keeps_ret {A} (a : A) : keeps (ret a).
Proof. intros s. apply stable_refl. Qed.

Lemma keeps_raise {A} (e : exn) : keeps (@raise A e).
Proof. intros s. apply stable_refl. Qed.

Lemma keeps_gets {A} (f : State -> A) : keeps (gets f).
Proof. intros s. apply stable_refl. Qed.

Lemma keeps_bind {A B} (m : M A) (f : A -> M B) :
  keeps m -> (forall a, keeps (f a)) -> keeps (bind m f).
Proof.
  intros Hm Hf s. unfold bind. specialize (Hm s).
  destruct (m s) as [[a | e] s1]; cbn [snd] in *.
  - exact (stable_trans _ _ _ Hm (Hf a s1)).
  - exact Hm.
Qed.

Lemma keeps_request {A} (c : Call) (answer : outcome A) : keeps (request c answer).
Proof. intros s. apply stable_same_cache. reflexivity. Qed.

Lemma keeps_except_WebFault {A} (body handler : M A) :
  keeps body -> keeps handler -> keeps (except_WebFault body handler).
Proof.
  intros Hb Hh s. unfold except_WebFault. specialize (Hb s).
  destruct (body s) as [[a | e] s1]; cbn [snd] in *; [exact Hb |].
  destruct e; try exact Hb.
  exact (stable_trans _ _ _ Hb (Hh s1)).
Qed.

Lemma keeps_subscript {A} (d : gmap string A) (k : string) : keeps (subscript d k).
Proof. unfold subscript. destruct (d !! k); [apply keeps_ret | apply keeps_raise]. Qed.

Lemma keeps_read_local {A} (name : string) (slot : option A) : keeps (read_local name slot).
Proof. destruct slot; [apply keeps_ret | apply keeps_raise]. Qed.

Lemma keeps_for_each {A} (l : list A) (body : A -> M unit) :
  (forall x, keeps (body x)) -> keeps (for_each l body).
Proof.
  intros Hb. induction l as [| x l IH]; cbn [for_each].
  - apply keeps_ret.
  - apply keeps_bind; [apply Hb | intros _; exact IH].
Qed.

Lemma keeps_set_vat_rates_cache (c : gmap string (gmap string float)) :
  keeps (set_vat_rates_cache c).
Proof. intros s. apply stable_same_cache. reflexivity. Qed.

Lemma keeps_py_div (x y : float) : keeps (py_div x y).
Proof. unfold py_div. destruct (PrimFloat.eqb y 0); [apply keeps_raise | apply keeps_ret]. Qed.

Lemma keeps_fetch_exchange_rates (w : World) : keeps (fetch_exchange_rates w).
Proof.
  intros s. unfold fetch_exchange_rates, bind, gets, request, set_exchange_rates_cache, modify.
  destruct (_exchange_rates_cache s !! today w) as [rates |] eqn:Hhit.
  - apply stable_refl.
  - destruct (ecb_feed w) as [cubes | e]; cbn.
    + split.
      * intros d rates H. cbn.
        rewrite lookup_insert_ne; [exact H |]. intros <-. congruence.
      * intros P d rates. cbn. rewrite lookup_insert.
        case_decide as Hd.
        -- intros [= <-]. exists cubes. reflexivity.
        -- apply P.
    + apply stable_same_cache. reflexivity.
Qed.

Create HintDb keeps.
#[local] Hint Resolve keeps_ret keeps_raise keeps_gets keeps_request keeps_subscript
  keeps_read_local keeps_set_vat_rates_cache keeps_py_div keeps_fetch_exchange_rates
  : keeps.

(** Takes a computation apart along its binds and its tests. *)
Ltac keeps_step :=
  match goal with
  | |- keeps (bind _ _) => apply keeps_bind; [| intros ?]
  | |- keeps (except_WebFault _ _) => apply keeps_except_WebFault
  | |- keeps (for_each _ _) => apply keeps_for_each; intros ?
  | |- keeps (if ?b then _ else _) => destruct b
  | |- keeps (match ?x with _ => _ end) => destruct x
  | |- keeps (let _ := _ in _) => cbv zeta
  | |- keeps _ => solve [auto with keeps]
  end.

Lemma keeps_store_vat_rate (country_code label : string) (value : float) :
  keeps (store_vat_rate country_code label value).
Proof. unfold store_vat_rate. repeat keeps_step. Qed.
#[local] Hint Resolve keeps_store_vat_rate : keeps.

Lemma keeps_get_vat_rate options w country_code rate_type :
  keeps (get_vat_rate options w country_code rate_type).
Proof. unfold get_vat_rate. repeat keeps_step. Qed.

Lemma keeps_validate_vat_number w vat_number :
  keeps (validate_vat_number w vat_number).
Proof. unfold validate_vat_number. repeat keeps_step. Qed.

Lemma keeps_get_exchange_rate py_round w country_code src_currency :
  keeps (get_exchange_rate py_round w country_code src_currency).
Proof. unfold get_exchange_rate. repeat keeps_step. Qed.
#[local] Hint Resolve keeps_get_vat_rate keeps_validate_vat_number
  keeps_get_exchange_rate : keeps.

Lemma keeps_check py_round options w country_code vat_number amount src_currency :
  keeps (check py_round options w country_code vat_number amount src_currency).
Proof. unfold check. repeat keeps_step. Qed.

Lemma step_stable (s s' : State) : step s s' -> stable s s'.
Proof.
  intros H. destruct H.
  - apply keeps_fetch_exchange_rates.
  - apply keeps_get_vat_rate.
  - apply keeps_validate_vat_number.
  - apply keeps_get_exchange_rate.
  - apply keeps_check.
Qed.

Lemma steps_stable (s s' : State) : rtc step s s' -> stable s s'.
Proof.
  induction 1 as [s | s1 s2 s3 H12 _ IH].
  - apply stable_refl.
  - exact (stable_trans _ _ _ (step_stable _ _ H12) IH).
Qed.

Lemma reachable_snapshots_parsed (s : State) : reachable s -> snapshots_parsed s.
Proof.
  intros H. apply steps_stable in H as [_ P]. apply P.
  intros d rates Hd. cbn in Hd. rewrite lookup_empty in Hd. discriminate.
Qed.

(** A cache hit: the stored snapshot is returned and nothing else
    happens, whatever the feed would answer. *)
Lemma fetch_exchange_rates_hit (w : World) (s : State) (rates : gmap string float) :
  _exchange_rates_cache s !! today w = Some rates ->
  fetch_exchange_rates w s = (Ok rates, s).
Proof.
  intros Hhit. unfold fetch_exchange_rates, bind, gets. rewrite Hhit. reflexivity.
Qed.

(** A cache miss: one request, and the snapshot is stored when the feed
    could be read. *)
Lemma fetch_exchange_rates_miss (w : World) (s : State) :
  _exchange_rates_cache s !! today w = None ->
  fetch_exchange_rates w s
  = match ecb_feed w with
    | Ok cubes =>
        (Ok (parse_rates cubes),
         {| _exchange_rates_cache :=
              <[today w := parse_rates cubes]> (_exchange_rates_cache s);
            _vat_rates_cache := _vat_rates_cache s;
            calls := calls s ++ [CallECB] |})
    | Raise e => (Raise e, logged CallECB s)
    end.
Proof.
  intros Hmiss. unfold fetch_exchange_rates, bind, gets. rewrite Hmiss.
  unfold request. destruct (ecb_feed w); reflexivity.
Qed.

(** A snapshot that was returned is in the cache under today's date. *)
Lemma fetch_exchange_rates_cached (w : World) (s s1 : State) (rates : gmap string float) :
  fetch_exchange_rates w s = (Ok rates, s1) ->
  _exchange_rates_cache s1 !! today w = Some rates.
Proof.
  destruct (_exchange_rates_cache s !! today w) as [cached |] eqn:Hc.
  - rewrite (fetch_exchange_rates_hit _ _ _ Hc). intros [= <- <-]. exact Hc.
  - rewrite (fetch_exchange_rates_miss _ _ Hc).
    destruct (ecb_feed w); [| discriminate].
    intros [= <- <-]. cbn. apply lookup_insert_eq.
Qed.

(** The [EUR] entry when the feed names the euro: the rate of the last
    element that does. *)
Lemma eur_entry_last (before after : list (string * float)) (v : float) :
  Forall (fun cube => cube.1 <> "EUR") after ->
  eur_entry (before ++ ("EUR", v) :: after) = v.
Proof.
  intros Hafter. unfold eur_entry. rewrite fold_left_app. cbn [fold_left fst snd].
  rewrite String.eqb_refl.
  generalize (fold_left
                (fun rate cube => if String.eqb cube.1 "EUR" then cube.2 else rate)
                before 1%float).
  intros _. revert v. induction after as [| [currency rate] after IH]; intros v.
  - reflexivity.
  - inversion Hafter as [| ? ? Hne Hrest]; subst. cbn [fold_left fst snd] in *.
    apply String.eqb_neq in Hne. rewrite Hne. apply IH. exact Hrest.
Qed.

(** C7 (amended). Once [fetch_exchange_rates] has returned a snapshot,
    every later call on the same date, after any number of calls of the
    module and whatever the feed would now answer, returns that same
    snapshot and leaves the state as it is: no request is sent. A call
    that finds a snapshot for today returns it without a request. A call
    that finds none sends the one request and builds the snapshot from
    the feed it reads: the [EUR] entry is 1.0 when that feed does not
    list [EUR], and otherwise the rate of the last element of that feed
    that lists it. Every snapshot returned in a running process has an
    [EUR] entry. *)
Theorem fetch_exchange_rates_once (w : World) (s s1 : State) (rates : gmap string float) :
  reachable s ->
  fetch_exchange_rates w s = (Ok rates, s1) ->
  (forall w2 s2,
     rtc step s1 s2 ->
     today w2 = today w ->
     fetch_exchange_rates w2 s2 = (Ok rates, s2)) /\
  is_Some (rates !! "EUR") /\
  (forall cached,
     _exchange_rates_cache s !! today w = Some cached ->
     rates = cached /\ s1 = s) /\
  (_exchange_rates_cache s !! today w = None ->
   exists cubes,
     ecb_feed w = Ok cubes /\
     calls s1 = (calls s ++ [CallECB])%list /\
     (Forall (fun cube => cube.1 <> "EUR") cubes -> rates !! "EUR" = Some 1%float) /\
     (forall before v after,
        cubes = (before ++ ("EUR", v) :: after)%list ->
        Forall (fun cube => cube.1 <> "EUR") after ->
        rates !! "EUR" = Some v)).
Proof.
  intros Hreach Hfetch.
  pose proof (fetch_exchange_rates_cached _ _ _ _ Hfetch) as Hcached.
  split_and!.
  - intros w2 s2 Hsteps Hdate.
    apply fetch_exchange_rates_hit. rewrite Hdate.
    apply steps_stable in Hsteps as [Hkept _]. apply Hkept, Hcached.
  - assert (snapshots_parsed s1) as Hparsed.
    { pose proof (keeps_fetch_exchange_rates w s) as [_ P].
      rewrite Hfetch in P. apply P, reachable_snapshots_parsed, Hreach. }
    destruct (Hparsed _ _ Hcached) as [cubes ->].
    rewrite parse_rates_EUR. eexists. reflexivity.
  - intros cached Hhit.
    rewrite (fetch_exchange_rates_hit _ _ _ Hhit) in Hfetch.
    injection Hfetch as <- <-. split; reflexivity.
  - intros Hmiss.
    rewrite (fetch_exchange_rates_miss _ _ Hmiss) in Hfetch.
    destruct (ecb_feed w) as [cubes | e]; [| discriminate].
    injection Hfetch as <- <-. exists cubes. split_and!.
    + reflexivity.
    + reflexivity.
    + intros Hall. rewrite parse_rates_EUR, (eur_entry_unlisted _ Hall). reflexivity.
    + intros before v after -> Hafter.
      rewrite parse_rates_EUR, (eur_entry_last _ _ _ Hafter). reflexivity.
Qed.

(** A first fetch reads a feed that lists the euro with the rates 2 and
    then 3: the snapshot has 3. A second fetch on the same day answers
    from the cache although the feed is now unreachable. *)
Lemma fetch_exchange_rates_once_witness :
  fetch_exchange_rates a_failing_world
    (fetch_exchange_rates a_world_listing_EUR_twice initial_state).2
  = (Ok (parse_rates [("EUR", 2%float); ("USD", 1.25%float); ("EUR", 3%float)]),
     (fetch_exchange_rates a_world_listing_EUR_twice initial_state).2) /\
  parse_rates [("EUR", 2%float); ("USD", 1.25%float); ("EUR", 3%float)] !! "EUR"
  = Some 3%float.
Proof.
  pose proof (fetch_exchange_rates_once a_world_listing_EUR_twice initial_state
                (fetch_exchange_rates a_world_listing_EUR_twice initial_state).2
                (parse_rates [("EUR", 2%float); ("USD", 1.25%float); ("EUR", 3%float)])
                (rtc_refl _ _) eq_refl) as (Hlater & _ & _ & Hmiss).
  split.
  - apply Hlater; [apply rtc_refl | reflexivity].
  - destruct (Hmiss eq_refl) as (cubes & Hfeed & _ & _ & Hlast).
    injection Hfeed as <-.
    apply (Hlast [("EUR", 2%float); ("USD", 1.25%float)] 3%float []);
      [reflexivity | constructor].
Defined.

(** The [EUR] entry of the snapshot built from that feed is the feed's
    last rate for the euro, 3.0, not 1.0. *)
Lemma snapshot_EUR_overwritten :
  (fetch_exchange_rates a_world_listing_EUR_twice initial_state).1
  = Ok (parse_rates [("EUR", 2%float); ("USD", 1.25%float); ("EUR", 3%float)]) /\
  parse_rates [("EUR", 2%float); ("USD", 1.25%float); ("EUR", 3%float)] !! "EUR"
  = Some 3%float.
Proof. split; vm_compute; reflexivity. Qed.

(** A failed fetch stores nothing, so the next call on that date sends
    a request again. *)
Lemma fetch_exchange_rates_retry :
  calls (fetch_exchange_rates a_world
           (fetch_exchange_rates a_failing_world initial_state).2).2
  = [CallECB; CallECB].
Proof. vm_compute. reflexivity. Qed.

(** ** Strings and the membership test *)

Lemma upper_ascii_idempotent (c : ascii) : upper_ascii (upper_ascii c) = upper_ascii c.
Proof. destruct c as [[] [] [] [] [] [] [] []]; reflexivity. Qed.

Lemma upper_lower_ascii (c : ascii) : upper_ascii (lower_ascii c) = upper_ascii c.
Proof. destruct c as [[] [] [] [] [] [] [] []]; reflexivity. Qed.

Lemma lower_ascii_idempotent (c : ascii) : lower_ascii (lower_ascii c) = lower_ascii c.
Proof. destruct c as [[] [] [] [] [] [] [] []]; reflexivity. Qed.

Lemma upper_idempotent (s : string) : upper (upper s) = upper s.
Proof.
  induction s as [| c s IH]; [reflexivity |].
  cbn. rewrite upper_ascii_idempotent. f_equal. exact IH.
Qed.

Lemma upper_lower (s : string) : upper (lower s) = upper s.
Proof.
  induction s as [| c s IH]; [reflexivity |].
  cbn. rewrite upper_lower_ascii. f_equal. exact IH.
Qed.

Lemma lower_idempotent (s : string) : lower (lower s) = lower s.
Proof.
  induction s as [| c s IH]; [reflexivity |].
  cbn. rewrite lower_ascii_idempotent. f_equal. exact IH.
Qed.

Lemma str_map_length (f : ascii -> ascii) (s : string) :
  String.length (str_map f s) = String.length s.
Proof. induction s as [| c s IH]; [reflexivity |]. cbn. f_equal. exact IH. Qed.

Lemma str_map_empty (f : ascii -> ascii) (s : string) :
  String.eqb (str_map f s) "" = String.eqb s "".
Proof. destruct s; reflexivity. Qed.

(** Every key of the table has two characters. *)
Lemma table_keys_length (c dest : string) :
  EU_COUNTRIES !! c = Some dest -> String.length c = 2%nat.
Proof.
  intros H. apply elem_of_list_to_map_2 in H.
  repeat (apply elem_of_cons in H as [H | H]; [inversion H; subst; reflexivity |]).
  apply elem_of_nil in H. destruct H.
Qed.

(** X1. A code and its upper-case form are accepted or refused by the
    membership test together, and so is the lower-case form of a code of
    ASCII characters. The upper-case form of an accepted code is a key
    of the table, and an accepted code of ASCII characters has exactly
    two characters. *)
Theorem is_eu_country_case_insensitive (country_code : string) :
  truthy (is_eu_country (Some (upper country_code)))
  = truthy (is_eu_country (Some country_code)) /\
  (is_ascii country_code = true ->
   truthy (is_eu_country (Some (lower country_code)))
   = truthy (is_eu_country (Some country_code))) /\
  (truthy (is_eu_country (Some country_code)) = true ->
   is_Some (EU_COUNTRIES !! upper country_code) /\
   (is_ascii country_code = true -> String.length country_code = 2%nat)).
Proof.
  rewrite !truthy_is_eu_country. unfold eu_member.
  rewrite upper_idempotent, upper_lower. split_and!; try reflexivity.
  unfold py_in. destruct (EU_COUNTRIES !! upper country_code) as [dest |] eqn:Hkey;
    [| discriminate].
  intros _. split; [eexists; reflexivity |]. intros _.
  apply table_keys_length in Hkey. unfold upper in Hkey.
  rewrite str_map_length in Hkey. exact Hkey.
Qed.

Lemma is_eu_country_case_insensitive_witness :
  truthy (is_eu_country (Some (lower "dK"))) = truthy (is_eu_country (Some "dK")) /\
  is_Some (EU_COUNTRIES !! upper "dK") /\
  String.length "dK" = 2%nat.
Proof.
  pose proof (is_eu_country_case_insensitive "dK") as (_ & Hlower & Haccepted).
  destruct (Haccepted eq_refl) as [Hkey Hlength].
  split_and!; [apply Hlower; reflexivity | exact Hkey | apply Hlength; reflexivity].
Defined.

(** ** Relations that computations respect *)

Section Respects.
Variable R : State -> State -> Prop.
Hypothesis R_refl : forall s, R s s.
Hypothesis R_trans : forall s1 s2 s3, R s1 s2 -> R s2 s3 -> R s1 s3.

Lemma respects_ret {A} (a : A) : respects R (ret a).
Proof using R_refl. intros s. apply R_refl. Qed.

Lemma respects_raise {A} (e : exn) : respects R (@raise A e).
Proof using R_refl. intros s. apply R_refl. Qed.

Lemma respects_gets {A} (f : State -> A) : respects R (gets f).
Proof using R_refl. intros s. apply R_refl. Qed.

Lemma respects_bind {A B} (m : M A) (f : A -> M B) :
  respects R m -> (forall a, respects R (f a)) -> respects R (bind m f).
Proof using R_trans.
  intros Hm Hf s. unfold bind. specialize (Hm s).
  destruct (m s) as [[a | e] s1]; cbn [snd] in *.
  - exact (R_trans _ _ _ Hm (Hf a s1)).
  - exact Hm.
Qed.

Lemma respects_except_WebFault {A} (body handler : M A) :
  respects R body -> respects R handler -> respects R (except_WebFault body handler).
Proof using R_trans.
  intros Hb Hh s. unfold except_WebFault. specialize (Hb s).
  destruct (body s) as [[a | e] s1]; cbn [snd] in *; [exact Hb |].
  destruct e; try exact Hb.
  exact (R_trans _ _ _ Hb (Hh s1)).
Qed.

Lemma respects_subscript {A} (d : gmap string A) (k : string) : respects R (subscript d k).
Proof using R_refl.
  unfold subscript. destruct (d !! k); [apply respects_ret | apply respects_raise].
Qed.

Lemma respects_read_local {A} (name : string) (slot : option A) :
  respects R (read_local name slot).
Proof using R_refl. destruct slot; [apply respects_ret | apply respects_raise]. Qed.

Lemma respects_py_div (x y : float) : respects R (py_div x y).
Proof using R_refl.
  unfold py_div. destruct (PrimFloat.eqb y 0); [apply respects_raise | apply respects_ret].
Qed.

Lemma respects_for_each {A} (l : list A) (body : A -> M unit) :
  (forall x, respects R (body x)) -> respects R (for_each l body).
Proof using R_refl R_trans.
  intros Hb. induction l as [| x l IH]; cbn [for_each].
  - apply respects_ret.
  - apply respects_bind; [apply Hb | intros _; exact IH].
Qed.

End Respects.

(** Takes a computation apart along its binds and its tests; [base] closes
    the requests and the cache updates. *)
Ltac respects_with refl trans base :=
  repeat match goal with
  | |- respects _ (bind _ _) => apply (respects_bind _ trans); [| intros ?]
  | |- respects _ (except_WebFault _ _) => apply (respects_except_WebFault _ trans)
  | |- respects _ (for_each _ _) => apply (respects_for_each _ refl trans); intros ?
  | |- respects _ (if ?b then _ else _) => destruct b
  | |- respects _ (match ?x with _ => _ end) => destruct x
  | |- respects _ (ret _) => apply (respects_ret _ refl)
  | |- respects _ (raise _) => apply (respects_raise _ refl)
  | |- respects _ (gets _) => apply (respects_gets _ refl)
  | |- respects _ (subscript _ _) => apply (respects_subscript _ refl)
  | |- respects _ (read_local _ _) => apply (respects_read_local _ refl)
  | |- respects _ (py_div _ _) => apply (respects_py_div _ refl)
  | |- respects _ _ => solve [base]
  end.

Lemma same_snapshots_refl s : same_snapshots s s.
Proof. reflexivity. Qed.

Lemma same_snapshots_trans s1 s2 s3 :
  same_snapshots s1 s2 -> same_snapshots s2 s3 -> same_snapshots s1 s3.
Proof. unfold same_snapshots. congruence. Qed.

Lemma same_vat_rates_refl s : same_vat_rates s s.
Proof. reflexivity. Qed.

Lemma same_vat_rates_trans s1 s2 s3 :
  same_vat_rates s1 s2 -> same_vat_rates s2 s3 -> same_vat_rates s1 s3.
Proof. unfold same_vat_rates. congruence. Qed.

Lemma same_calls_refl s : same_calls s s.
Proof. reflexivity. Qed.

Lemma same_calls_trans s1 s2 s3 : same_calls s1 s2 -> same_calls s2 s3 -> same_calls s1 s3.
Proof. unfold same_calls. congruence. Qed.

Lemma vat_rates_kept_refl s : vat_rates_kept s s.
Proof. intros country entry H. exact H. Qed.

Lemma vat_rates_kept_trans s1 s2 s3 :
  vat_rates_kept s1 s2 -> vat_rates_kept s2 s3 -> vat_rates_kept s1 s3.
Proof. intros H12 H23 country entry H. apply H23, H12, H. Qed.

Lemma vat_rates_kept_but_refl c s : vat_rates_kept_but c s s.
Proof. intros country _. reflexivity. Qed.

Lemma vat_rates_kept_but_trans c s1 s2 s3 :
  vat_rates_kept_but c s1 s2 -> vat_rates_kept_but c s2 s3 -> vat_rates_kept_but c s1 s3.
Proof. intros H12 H23 country Hne. rewrite (H23 _ Hne). apply H12, Hne. Qed.

(** *** Which cache each function leaves alone *)

Ltac frame_base :=
  first [ intros ?; reflexivity ].

Lemma fetch_exchange_rates_same_vat_rates w :
  respects same_vat_rates (fetch_exchange_rates w).
Proof.
  unfold fetch_exchange_rates, set_exchange_rates_cache, modify.
  respects_with same_vat_rates_refl same_vat_rates_trans frame_base.
Qed.

Lemma store_vat_rate_same_snapshots country_code label value :
  respects same_snapshots (store_vat_rate country_code label value).
Proof.
  unfold store_vat_rate.
  respects_with same_snapshots_refl same_snapshots_trans frame_base.
Qed.

Lemma get_vat_rate_same_snapshots options w country_code rate_type :
  respects same_snapshots (get_vat_rate options w country_code rate_type).
Proof.
  unfold get_vat_rate.
  respects_with same_snapshots_refl same_snapshots_trans
    ltac:(first [apply store_vat_rate_same_snapshots | frame_base]).
Qed.

Lemma validate_vat_number_same_snapshots w vat_number :
  respects same_snapshots (validate_vat_number w vat_number).
Proof.
  unfold validate_vat_number.
  respects_with same_snapshots_refl same_snapshots_trans frame_base.
Qed.

Lemma validate_vat_number_same_vat_rates w vat_number :
  respects same_vat_rates (validate_vat_number w vat_number).
Proof.
  unfold validate_vat_number.
  respects_with same_vat_rates_refl same_vat_rates_trans frame_base.
Qed.

Lemma get_exchange_rate_same_vat_rates py_round w country_code src_currency :
  respects same_vat_rates (get_exchange_rate py_round w country_code src_currency).
Proof.
  unfold get_exchange_rate.
  respects_with same_vat_rates_refl same_vat_rates_trans
    ltac:(first [apply fetch_exchange_rates_same_vat_rates | frame_base]).
Qed.

(** X2. Each function touches only its own cache: [get_vat_rate] never
    changes the snapshot cache, [fetch_exchange_rates] and
    [get_exchange_rate] never change the VAT-rate cache, and
    [validate_vat_number] changes neither, whatever their outcome. *)
Theorem caches_are_separate (py_round : float -> Z -> float) (options : Options)
    (w : World) (s : State) :
  (forall country_code rate_type,
     _exchange_rates_cache (get_vat_rate options w country_code rate_type s).2
     = _exchange_rates_cache s) /\
  _vat_rates_cache (fetch_exchange_rates w s).2 = _vat_rates_cache s /\
  (forall country_code src_currency,
     _vat_rates_cache (get_exchange_rate py_round w country_code src_currency s).2
     = _vat_rates_cache s) /\
  (forall vat_number,
     _exchange_rates_cache (validate_vat_number w vat_number s).2
     = _exchange_rates_cache s /\
     _vat_rates_cache (validate_vat_number w vat_number s).2 = _vat_rates_cache s).
Proof.
  split_and!; intros.
  - apply get_vat_rate_same_snapshots.
  - apply fetch_exchange_rates_same_vat_rates.
  - apply get_exchange_rate_same_vat_rates.
  - split; [apply validate_vat_number_same_snapshots
           | apply validate_vat_number_same_vat_rates].
Qed.

(** ** The VAT-rate cache *)

Lemma rate_label_spec (options : Options) (rate_type : option string) :
  lower (if negb (truthy (of_opt_str rate_type)) then vat_rate options
         else default "" rate_type)
  = rate_label options rate_type.
Proof. unfold rate_label. destruct (truthy (of_opt_str rate_type)); reflexivity. Qed.

(** A cache hit: no request, no change. *)
Lemma get_vat_rate_hit (options : Options) (w : World) (country_code : string)
    (rate_type : option string) (s : State) (entry : gmap string float) :
  eu_member country_code = true ->
  _vat_rates_cache s !! country_code = Some entry ->
  get_vat_rate options w country_code rate_type s
  = (Ok (entry !! rate_label options rate_type), s).
Proof.
  intros Heu Hhit.
  unfold get_vat_rate. rewrite truthy_is_eu_country, Heu. cbn [negb].
  cbv zeta. rewrite rate_label_spec.
  unfold bind, gets, py_in, subscript. rewrite Hhit. cbn.
  rewrite Hhit. reflexivity.
Qed.

(** The loop that fills the entry of a country. *)
Lemma for_each_store_vat_rate (country_code : string) (rates : list (string * float))
    (s : State) (entry : gmap string float) :
  _vat_rates_cache s !! country_code = Some entry ->
  for_each rates (fun rate => store_vat_rate country_code (lower rate.1) rate.2) s
  = (Ok tt,
     {| _exchange_rates_cache := _exchange_rates_cache s;
        _vat_rates_cache :=
          <[country_code :=
              fold_left (fun entry rate => <[lower rate.1 := rate.2]> entry) rates entry]>
            (_vat_rates_cache s);
        calls := calls s |}).
Proof.
  revert s entry. induction rates as [| [label value] rates IH]; intros s entry Hentry.
  - cbn. rewrite (insert_id _ _ _ Hentry). destruct s; reflexivity.
  - cbn [for_each fold_left fst snd].
    unfold bind at 1. unfold store_vat_rate at 1.
    unfold bind, gets, subscript, set_vat_rates_cache, modify. rewrite Hentry.
    cbn [ret fst snd].
    rewrite (IH _ (<[lower label := value]> entry)); cbn.
    + rewrite insert_insert_eq. reflexivity.
    + apply lookup_insert_eq.
Qed.

(** What [get_vat_rate] does on a cache miss, by the answer of TIC. *)
Lemma get_vat_rate_miss (options : Options) (w : World) (country_code : string)
    (rate_type : option string) (s : State) :
  eu_member country_code = true ->
  _vat_rates_cache s !! country_code = None ->
  get_vat_rate options w country_code rate_type s
  = match tic_getRates w country_code (today w) with
    | Ok rates =>
        (Ok (vat_entry rates !! rate_label options rate_type),
         {| _exchange_rates_cache := _exchange_rates_cache s;
            _vat_rates_cache := <[country_code := vat_entry rates]> (_vat_rates_cache s);
            calls := calls s ++ [CallTIC country_code (today w)] |})
    | Raise WebFault =>
        (Raise (UnboundLocalError "r"),
         {| _exchange_rates_cache := _exchange_rates_cache s;
            _vat_rates_cache := <[country_code := ∅]> (_vat_rates_cache s);
            calls := calls s ++ [CallTIC country_code (today w)] |})
    | Raise e => (Raise e, logged (CallTIC country_code (today w)) s)
    end.
Proof.
  intros Heu Hmiss.
  unfold get_vat_rate. rewrite truthy_is_eu_country, Heu. cbn [negb].
  cbv zeta. rewrite rate_label_spec.
  unfold bind at 1. cbn [gets].
  unfold py_in. rewrite Hmiss. cbn [negb].
  unfold bind at 1. unfold bind at 1.
  unfold except_WebFault, request, bind at 1.
  destruct (tic_getRates w country_code (today w)) as [rates | e].
  - cbn [ret]. unfold bind at 1. cbn [gets].
    unfold bind at 1. cbn [set_vat_rates_cache modify _vat_rates_cache].
    unfold bind at 1. cbn [read_local ret].
    rewrite (for_each_store_vat_rate country_code rates _ ∅) by apply lookup_insert_eq.
    cbn. unfold bind, gets, subscript. cbn.
    rewrite insert_insert_eq, lookup_insert_eq. reflexivity.
  - destruct e; reflexivity.
Qed.

(** X3. For an EU country that is not in the VAT-rate cache and for
    which TIC answers, [get_vat_rate] sends that one request, stores for
    the country the rates of the answer under their lower-cased labels (a
    label listed twice keeps its last rate), and returns the rate stored
    under the lower-cased [rate_type], or under the configured label when
    [rate_type] is absent or empty; [None] when there is none. *)
Theorem get_vat_rate_populates (options : Options) (w : World) (country_code : string)
    (rate_type : option string) (s : State) (rates : list (string * float)) :
  eu_member country_code = true ->
  _vat_rates_cache s !! country_code = None ->
  tic_getRates w country_code (today w) = Ok rates ->
  get_vat_rate options w country_code rate_type s
  = (Ok (vat_entry rates !! rate_label options rate_type),
     {| _exchange_rates_cache := _exchange_rates_cache s;
        _vat_rates_cache := <[country_code := vat_entry rates]> (_vat_rates_cache s);
        calls := calls s ++ [CallTIC country_code (today w)] |}).
Proof.
  intros Heu Hmiss Htic.
  rewrite (get_vat_rate_miss _ _ _ _ _ Heu Hmiss), Htic. reflexivity.
Qed.

Lemma get_vat_rate_populates_witness :
  get_vat_rate defaults a_world "FR" (Some "REDUCED") initial_state
  = (Ok (vat_entry [("Standard", 20%float); ("Reduced", 5.5%float)]
           !! rate_label defaults (Some "REDUCED")),
     {| _exchange_rates_cache := ∅;
        _vat_rates_cache :=
          {["FR" := vat_entry [("Standard", 20%float); ("Reduced", 5.5%float)] ]};
        calls := [CallTIC "FR" 736330] |}).
Proof.
  apply (get_vat_rate_populates defaults a_world "FR" (Some "REDUCED") initial_state);
    reflexivity.
Defined.

(** The entry built from an answer, read back label by label. *)
Lemma vat_entry_lookup (rates : list (string * float)) (label : string) :
  vat_entry rates !! label
  = fold_left (fun found rate => if String.eqb (lower rate.1) label then Some rate.2 else found)
              rates None.
Proof.
  unfold vat_entry.
  change (@None float) with ((∅ : gmap string float) !! label) at 1.
  generalize (∅ : gmap string float).
  induction rates as [| [l v] rates IH]; intros entry; [reflexivity |].
  cbn [fold_left fst snd]. rewrite IH. f_equal.
  destruct (String.eqb_spec (lower l) label) as [-> | Hne].
  - apply lookup_insert_eq.
  - apply lookup_insert_ne. exact Hne.
Qed.

(** Every function keeps the entries that the VAT-rate cache has. *)
Lemma get_vat_rate_keeps_entries options w country_code rate_type :
  respects vat_rates_kept (get_vat_rate options w country_code rate_type).
Proof.
  intros s country entry Hentry.
  destruct (eu_member country_code) eqn:Heu.
  - destruct (_vat_rates_cache s !! country_code) as [cached |] eqn:Hc.
    + rewrite (get_vat_rate_hit _ _ _ _ _ _ Heu Hc). exact Hentry.
    + assert (country <> country_code) as Hne by congruence.
      rewrite (get_vat_rate_miss _ _ _ _ _ Heu Hc).
      destruct (tic_getRates w country_code (today w)) as [rates | e]; cbn.
      * rewrite lookup_insert_ne by congruence. exact Hentry.
      * destruct e; cbn; try exact Hentry.
        rewrite lookup_insert_ne by congruence. exact Hentry.
  - unfold get_vat_rate. rewrite truthy_is_eu_country, Heu. exact Hentry.
Qed.

Lemma same_vat_rates_kept {A} (m : M A) :
  respects same_vat_rates m -> respects vat_rates_kept m.
Proof. intros H s country entry Hentry. rewrite (H s). exact Hentry. Qed.

Lemma check_keeps_entries py_round options w country_code vat_number amount src_currency :
  respects vat_rates_kept
    (check py_round options w country_code vat_number amount src_currency).
Proof.
  unfold check.
  respects_with vat_rates_kept_refl vat_rates_kept_trans
    ltac:(first [ apply get_vat_rate_keeps_entries
                | apply same_vat_rates_kept, validate_vat_number_same_vat_rates
                | apply same_vat_rates_kept, get_exchange_rate_same_vat_rates ]).
Qed.

Lemma step_keeps_entries (s s' : State) : step s s' -> vat_rates_kept s s'.
Proof.
  intros H. destruct H.
  - apply same_vat_rates_kept, fetch_exchange_rates_same_vat_rates.
  - apply get_vat_rate_keeps_entries.
  - apply same_vat_rates_kept, validate_vat_number_same_vat_rates.
  - apply same_vat_rates_kept, get_exchange_rate_same_vat_rates.
  - apply check_keeps_entries.
Qed.

Lemma steps_keep_entries (s s' : State) : rtc step s s' -> vat_rates_kept s s'.
Proof.
  induction 1 as [s | s1 s2 s3 H12 _ IH].
  - apply vat_rates_kept_refl.
  - exact (vat_rates_kept_trans _ _ _ (step_keeps_entries _ _ H12) IH).
Qed.

(** X4. Once the VAT-rate cache has an entry for an EU country, the
    entry is never refreshed: after any number of calls of the module,
    in any world and with any options, [get_vat_rate] for that country
    sends no request, changes nothing and answers from that entry. *)
Theorem vat_rate_entry_never_refreshed (options : Options) (w : World)
    (country_code : string) (rate_type : option string)
    (s s' : State) (entry : gmap string float) :
  eu_member country_code = true ->
  _vat_rates_cache s !! country_code = Some entry ->
  rtc step s s' ->
  get_vat_rate options w country_code rate_type s'
  = (Ok (entry !! rate_label options rate_type), s').
Proof.
  intros Heu Hentry Hsteps.
  apply get_vat_rate_hit; [exact Heu |].
  apply (steps_keep_entries _ _ Hsteps), Hentry.
Qed.

(** The rates stored for France in [a_world] are answered on a later day
    on which TIC would answer with a fault. *)
Lemma vat_rate_entry_never_refreshed_witness :
  get_vat_rate defaults a_failing_world "FR" None
    (get_vat_rate defaults a_world "FR" None initial_state).2
  = (Ok (vat_entry [("Standard", 20%float); ("Reduced", 5.5%float)]
           !! rate_label defaults None),
     (get_vat_rate defaults a_world "FR" None initial_state).2).
Proof.
  apply (vat_rate_entry_never_refreshed defaults a_failing_world "FR" None
           (get_vat_rate defaults a_world "FR" None initial_state).2
           (get_vat_rate defaults a_world "FR" None initial_state).2).
  - reflexivity.
  - reflexivity.
  - apply rtc_refl.
Defined.

(** X5. After a TIC fault on an EU country that was not cached, the
    empty entry left behind answers every later lookup: from then on
    [get_vat_rate] for that country returns [None] for every rate type,
    without a request, even when TIC works again. *)
Theorem get_vat_rate_after_fault_is_None (options options' : Options) (w w' : World)
    (country_code : string) (rate_type rate_type' : option string) (s s' : State) :
  eu_member country_code = true ->
  _vat_rates_cache s !! country_code = None ->
  tic_getRates w country_code (today w) = Raise WebFault ->
  rtc step (get_vat_rate options w country_code rate_type s).2 s' ->
  get_vat_rate options' w' country_code rate_type' s' = (Ok None, s').
Proof.
  intros Heu Hmiss Hfault Hsteps.
  rewrite (get_vat_rate_hit options' w' country_code rate_type' s' ∅ Heu).
  - rewrite lookup_empty. reflexivity.
  - apply (steps_keep_entries _ _ Hsteps).
    rewrite (get_vat_rate_miss _ _ _ _ _ Heu Hmiss), Hfault. cbn.
    apply lookup_insert_eq.
Qed.

(** France's lookup fails while TIC is down; on the next day, with TIC
    back, a second lookup answers [None] from the cache. *)
Lemma get_vat_rate_after_fault_is_None_witness :
  get_vat_rate defaults a_world "FR" None
    (get_vat_rate defaults a_failing_world "FR" None initial_state).2
  = (Ok None, (get_vat_rate defaults a_failing_world "FR" None initial_state).2).
Proof.
  apply (get_vat_rate_after_fault_is_None defaults defaults a_failing_world a_world
           "FR" None None initial_state).
  - reflexivity.
  - reflexivity.
  - reflexivity.
  - apply rtc_refl.
Defined.

(** ** The contents of a snapshot *)

Lemma fold_rates_lookup (cubes : list (string * float)) (rates : gmap string float)
    (currency : string) :
  fold_left (fun rates cube => <[cube.1 := cube.2]> rates) cubes rates !! currency
  = fold_left (fun found cube => if String.eqb cube.1 currency then Some cube.2 else found)
              cubes (rates !! currency).
Proof.
  revert rates. induction cubes as [| [c v] cubes IH]; intros rates; [reflexivity |].
  cbn [fold_left fst snd]. rewrite IH. f_equal.
  destruct (String.eqb_spec c currency) as [-> | Hne].
  - apply lookup_insert_eq.
  - apply lookup_insert_ne. exact Hne.
Qed.

Lemma fold_last_init (cubes : list (string * float)) (currency : string) (init : option float) :
  fold_left (fun found cube => if String.eqb cube.1 currency then Some cube.2 else found)
            cubes init
  = match last_rate currency cubes with
    | Some v => Some v
    | None => init
    end.
Proof.
  unfold last_rate. revert init.
  induction cubes as [| [c v] cubes IH]; intros init; [reflexivity |].
  cbn [fold_left fst snd]. rewrite IH.
  rewrite (IH (if String.eqb c currency then Some v else None)).
  destruct (fold_left _ cubes None); [reflexivity |].
  destruct (String.eqb c currency); reflexivity.
Qed.

Lemma parse_rates_lookup (cubes : list (string * float)) (currency : string) :
  parse_rates cubes !! currency
  = match last_rate currency cubes with
    | Some v => Some v
    | None => if String.eqb currency "EUR" then Some 1%float else None
    end.
Proof.
  unfold parse_rates. rewrite fold_rates_lookup, fold_last_init.
  destruct (last_rate currency cubes); [reflexivity |].
  destruct (String.eqb_spec currency "EUR") as [-> | Hne].
  - apply lookup_singleton_eq.
  - apply lookup_singleton_ne. congruence.
Qed.

(** The feed lists no rate for a currency exactly when no element of the
    feed names it. *)
Lemma last_rate_None (cubes : list (string * float)) (currency : string) :
  last_rate currency cubes = None <-> Forall (fun cube => cube.1 <> currency) cubes.
Proof.
  unfold last_rate.
  induction cubes as [| [c v] cubes IH] using rev_ind.
  - split; [constructor | reflexivity].
  - rewrite fold_left_app. cbn [fold_left fst snd]. rewrite Forall_app, Forall_singleton.
    cbn [fst]. destruct (String.eqb_spec c currency) as [-> | Hne].
    + split; [discriminate | intros [_ H]; contradiction].
    + rewrite IH. tauto.
Qed.

(** X6. On a cache miss with a readable feed, [fetch_exchange_rates]
    sends one request and returns, and stores under today's date, the
    snapshot in which each currency of the feed has the rate of its last
    element in the feed, [EUR] has 1.0 when the feed does not name it,
    and no other currency occurs. *)
Theorem fetch_exchange_rates_snapshot (w : World) (s : State)
    (cubes : list (string * float)) :
  _exchange_rates_cache s !! today w = None ->
  ecb_feed w = Ok cubes ->
  exists rates,
    fetch_exchange_rates w s
    = (Ok rates,
       {| _exchange_rates_cache := <[today w := rates]> (_exchange_rates_cache s);
          _vat_rates_cache := _vat_rates_cache s;
          calls := calls s ++ [CallECB] |}) /\
    forall currency,
      rates !! currency
      = match last_rate currency cubes with
        | Some v => Some v
        | None => if String.eqb currency "EUR" then Some 1%float else None
        end.
Proof.
  intros Hmiss Hfeed. exists (parse_rates cubes). split.
  - rewrite (fetch_exchange_rates_miss _ _ Hmiss), Hfeed. reflexivity.
  - apply parse_rates_lookup.
Qed.

Lemma fetch_exchange_rates_snapshot_witness :
  exists rates,
    fetch_exchange_rates a_world_listing_EUR initial_state
    = (Ok rates,
       {| _exchange_rates_cache := <[736330 := rates]> ∅;
          _vat_rates_cache := ∅;
          calls := [CallECB] |}) /\
    forall currency,
      rates !! currency
      = match last_rate currency [("EUR", 2%float); ("USD", 1.25%float)] with
        | Some v => Some v
        | None => if String.eqb currency "EUR" then Some 1%float else None
        end.
Proof.
  apply (fetch_exchange_rates_snapshot a_world_listing_EUR initial_state); reflexivity.
Defined.

(** ** More on exchange rates *)

(** X7. From euros: when the country code is a key of the table whose
    currency is not the euro and the snapshot is at hand,
    [get_exchange_rate] with source [EUR] returns the snapshot's rate of
    the destination currency as it is, without rounding; when the
    snapshot does not list that currency, it raises [KeyError]. *)
Theorem get_exchange_rate_from_EUR (py_round : float -> Z -> float) (w : World)
    (country_code dest_currency : string) (rates : gmap string float) (s s1 : State) :
  EU_COUNTRIES !! country_code = Some dest_currency ->
  dest_currency <> "EUR" ->
  fetch_exchange_rates w s = (Ok rates, s1) ->
  get_exchange_rate py_round w country_code "EUR" s
  = (match rates !! dest_currency with
     | Some rate => Ok rate
     | None => Raise (KeyError dest_currency)
     end, s1).
Proof.
  intros Hkey Hne Hfetch.
  rewrite (get_exchange_rate_fetched _ _ _ _ _ _ Hkey).
  rewrite (bind_Ok _ _ _ _ _ Hfetch).
  assert (String.eqb "EUR" dest_currency = false) as ->
    by (apply String.eqb_neq; congruence).
  cbn. unfold subscript. destruct (rates !! dest_currency); reflexivity.
Qed.

Lemma get_exchange_rate_from_EUR_witness :
  get_exchange_rate round_half_even a_world "GB" "EUR" initial_state
  = (match parse_rates [("USD", 1.25%float); ("GBP", 0.875%float); ("DKK", 7.5%float)]
             !! "GBP" with
     | Some rate => Ok rate
     | None => Raise (KeyError "GBP")
     end,
     (fetch_exchange_rates a_world initial_state).2).
Proof.
  apply (get_exchange_rate_from_EUR round_half_even a_world "GB" "GBP"
           (parse_rates [("USD", 1.25%float); ("GBP", 0.875%float); ("DKK", 7.5%float)])
           initial_state).
  - reflexivity.
  - discriminate.
  - reflexivity.
Defined.

(** X8. A source currency that the snapshot lists with the rate zero
    (of either sign) makes [get_exchange_rate] raise [ZeroDivisionError]
    after the snapshot was obtained. *)
Theorem get_exchange_rate_zero_rate (py_round : float -> Z -> float) (w : World)
    (country_code src_currency dest_currency : string)
    (rates : gmap string float) (src_rate : float) (s s1 : State) :
  EU_COUNTRIES !! country_code = Some dest_currency ->
  fetch_exchange_rates w s = (Ok rates, s1) ->
  src_currency <> "EUR" ->
  src_currency <> dest_currency ->
  rates !! src_currency = Some src_rate ->
  PrimFloat.eqb src_rate 0%float = true ->
  get_exchange_rate py_round w country_code src_currency s
  = (Raise ZeroDivisionError, s1).
Proof.
  intros Hkey Hfetch Heur Hdest Hsrc Hzero.
  rewrite (get_exchange_rate_fetched _ _ _ _ _ _ Hkey).
  rewrite (bind_Ok _ _ _ _ _ Hfetch).
  apply String.eqb_neq in Heur, Hdest. rewrite Heur, Hdest.
  unfold py_in. rewrite Hsrc. cbn [negb].
  unfold bind, subscript. rewrite Hsrc. cbn [ret].
  unfold py_div. rewrite Hzero. reflexivity.
Qed.

(** A feed in which the US dollar has the rate -0.0. *)
Lemma get_exchange_rate_zero_rate_witness :
  get_exchange_rate round_half_even
    {| today := 736330;
       ecb_feed := Ok [("USD", (-0)%float); ("DKK", 7.5%float)];
       tic_getRates := fun _ _ => Raise WebFault;
       vies_checkVat := fun _ _ => Raise WebFault |}
    "DK" "USD" initial_state
  = (Raise ZeroDivisionError,
     {| _exchange_rates_cache :=
          {[736330 := parse_rates [("USD", (-0)%float); ("DKK", 7.5%float)] ]};
        _vat_rates_cache := ∅;
        calls := [CallECB] |}).
Proof.
  apply (get_exchange_rate_zero_rate round_half_even _ "DK" "USD" "DKK"
           (parse_rates [("USD", (-0)%float); ("DKK", 7.5%float)]) (-0)%float
           initial_state);
    try reflexivity; discriminate.
Defined.

(** ** The requests a call sends *)

Lemma calls_among_same (s s' : State) : calls s' = calls s -> calls_among [] s s'.
Proof. intros H. exists []. rewrite H, app_nil_r. split; [reflexivity | constructor]. Qed.

Lemma calls_among_one (c : Call) (s s' : State) :
  calls s' = (calls s ++ [c])%list -> calls_among [c] s s'.
Proof. intros H. exists [c]. split; [exact H | reflexivity]. Qed.

Lemma calls_among_weaken (allowed allowed' : list Call) (s s' : State) :
  sublist allowed allowed' -> calls_among allowed s s' -> calls_among allowed' s s'.
Proof.
  intros Hsub (made & Hcalls & Hmade). exists made.
  split; [exact Hcalls | etransitivity; eassumption].
Qed.

Lemma calls_among_trans (l1 l2 : list Call) (s1 s2 s3 : State) :
  calls_among l1 s1 s2 -> calls_among l2 s2 s3 -> calls_among (l1 ++ l2) s1 s3.
Proof.
  intros (m1 & H1 & Hs1) (m2 & H2 & Hs2). exists (m1 ++ m2)%list. split.
  - rewrite H2, H1, app_assoc. reflexivity.
  - apply sublist_app; assumption.
Qed.

Lemma emits_bind {A B} (l1 l2 : list Call) (m : M A) (f : A -> M B) :
  respects (calls_among l1) m ->
  (forall a, respects (calls_among l2) (f a)) ->
  respects (calls_among (l1 ++ l2)) (bind m f).
Proof.
  intros Hm Hf s. unfold bind. specialize (Hm s).
  destruct (m s) as [[a | e] s1]; cbn [snd] in *.
  - exact (calls_among_trans _ _ _ _ _ Hm (Hf a s1)).
  - eapply calls_among_weaken; [| exact Hm]. apply sublist_inserts_r. reflexivity.
Qed.

Lemma emits_silent {A} (m : M A) :
  respects same_calls m -> respects (calls_among []) m.
Proof. intros H s. apply calls_among_same, H. Qed.

Lemma validate_vat_number_emits (w : World) (vat_number : string) :
  respects (calls_among [CallVIES (upper (slice_0_2 vat_number)) (slice_2_end vat_number)])
    (validate_vat_number w vat_number).
Proof.
  intros s. unfold validate_vat_number.
  destruct (String.length vat_number <? 3)%nat.
  - eapply calls_among_weaken; [| apply calls_among_same; reflexivity].
    apply sublist_nil_l.
  - unfold except_WebFault, request. apply calls_among_one.
    destruct (vies_checkVat w _ _) as [valid | e]; [reflexivity |].
    destruct e; reflexivity.
Qed.

Lemma get_vat_rate_emits (options : Options) (w : World) (country_code : string)
    (rate_type : option string) :
  respects (calls_among [CallTIC country_code (today w)])
    (get_vat_rate options w country_code rate_type).
Proof.
  intros s.
  assert (calls_among [] s s) as Hsame by (apply calls_among_same; reflexivity).
  destruct (eu_member country_code) eqn:Heu.
  - destruct (_vat_rates_cache s !! country_code) as [cached |] eqn:Hc.
    + rewrite (get_vat_rate_hit _ _ _ _ _ _ Heu Hc).
      eapply calls_among_weaken; [apply sublist_nil_l | exact Hsame].
    + rewrite (get_vat_rate_miss _ _ _ _ _ Heu Hc). apply calls_among_one.
      destruct (tic_getRates w country_code (today w)) as [rates | e]; [reflexivity |].
      destruct e; reflexivity.
  - unfold get_vat_rate. rewrite truthy_is_eu_country, Heu.
    eapply calls_among_weaken; [apply sublist_nil_l | exact Hsame].
Qed.

Lemma fetch_exchange_rates_emits (w : World) :
  respects (calls_among [CallECB]) (fetch_exchange_rates w).
Proof.
  intros s.
  destruct (_exchange_rates_cache s !! today w) as [rates |] eqn:Hc.
  - rewrite (fetch_exchange_rates_hit _ _ _ Hc).
    eapply calls_among_weaken; [apply sublist_nil_l | apply calls_among_same; reflexivity].
  - rewrite (fetch_exchange_rates_miss _ _ Hc). apply calls_among_one.
    destruct (ecb_feed w); reflexivity.
Qed.

Ltac silent :=
  apply emits_silent;
  respects_with same_calls_refl same_calls_trans ltac:(intros ?; reflexivity).

Lemma get_exchange_rate_emits (py_round : float -> Z -> float) (w : World)
    (country_code src_currency : string) :
  respects (calls_among [CallECB])
    (get_exchange_rate py_round w country_code src_currency).
Proof.
  unfold get_exchange_rate.
  destruct (negb _).
  - intros s. eapply calls_among_weaken; [apply sublist_nil_l |].
    apply calls_among_same. reflexivity.
  - apply (emits_bind [] [CallECB]); [silent | intros dest_currency].
    apply (emits_bind [CallECB] []); [apply fetch_exchange_rates_emits | intros rates].
    silent.
Qed.

(** X9. Whatever its arguments and its outcome, [check] sends at most
    three requests and in this order: one to VIES for the VAT number,
    one to TIC for the country and today's date, one to the ECB.
    [get_vat_rate], with any rate type, sends at most the one request to
    TIC, and [get_exchange_rate] at most the one to the ECB. *)
Theorem check_requests (py_round : float -> Z -> float) (options : Options) (w : World)
    (country_code : string) (vat_number : option string) (amount : option float)
    (src_currency : string) (s : State) :
  (exists made : list Call,
     calls (check py_round options w country_code vat_number amount src_currency s).2
     = (calls s ++ made)%list /\
     sublist made
       [CallVIES (upper (slice_0_2 (default "" vat_number)))
                 (slice_2_end (default "" vat_number));
        CallTIC country_code (today w);
        CallECB]) /\
  (forall rate_type,
   exists made : list Call,
     calls (get_vat_rate options w country_code rate_type s).2 = (calls s ++ made)%list /\
     sublist made [CallTIC country_code (today w)]) /\
  (exists made : list Call,
     calls (get_exchange_rate py_round w country_code src_currency s).2
     = (calls s ++ made)%list /\
     sublist made [CallECB]).
Proof.
  split_and!.
  - revert s. change (respects (calls_among
      ([CallVIES (upper (slice_0_2 (default "" vat_number)))
                 (slice_2_end (default "" vat_number))]
       ++ ([] ++ ([CallTIC country_code (today w)] ++ ([CallECB] ++ [])))))
      (check py_round options w country_code vat_number amount src_currency)).
    unfold check. destruct (negb _).
    + intros s. eapply calls_among_weaken; [apply sublist_nil_l |].
      apply calls_among_same. reflexivity.
    + apply emits_bind.
      { destruct (truthy (of_opt_str vat_number)).
        - apply validate_vat_number_emits.
        - intros s. eapply calls_among_weaken; [apply sublist_nil_l |].
          apply calls_among_same. reflexivity. }
      intros valid. apply emits_bind; [silent | intros currency].
      apply emits_bind; [apply get_vat_rate_emits | intros rate].
      apply emits_bind; [apply get_exchange_rate_emits | intros exchange_rate].
      cbv zeta. silent.
  - intros rate_type. apply get_vat_rate_emits.
  - apply get_exchange_rate_emits.
Qed.

(** ** More on the pricing calculator *)

(** [check] with and without an amount, side by side. *)
Lemma check_amount_cases (py_round : float -> Z -> float) (options : Options) (w : World)
    (country_code : string) (vat_number : option string) (src_currency : string)
    (s : State) :
  match check py_round options w country_code vat_number None src_currency s with
  | (Ok o, s') =>
      o_amounts o = None /\
      forall a,
        check py_round options w country_code vat_number (Some a) src_currency s
        = if float_truthy a then
            match effective_rate o with
            | Some rate =>
                (Ok {| o_country := o_country o;
                       o_currency := o_currency o;
                       o_vat_rate := o_vat_rate o;
                       o_vat_number := o_vat_number o;
                       o_is_vat_number_valid := o_is_vat_number_valid o;
                       o_should_charge_vat := o_should_charge_vat o;
                       o_exchange_rate := o_exchange_rate o;
                       o_src_currency := o_src_currency o;
                       o_amounts := Some
                         {| amount := a;
                            vat_amount := py_round (a * rate)%float 2;
                            amount_with_vat := (a + a * rate)%float;
                            exchanged_amount_with_vat :=
                              py_round ((a + a * rate) * o_exchange_rate o)%float 2 |} |},
                 s')
            | None => (Raise TypeError, s')
            end
          else (Ok o, s')
  | (Raise e, s') =>
      forall amount,
        check py_round options w country_code vat_number amount src_currency s
        = (Raise e, s')
  end.
Proof.
  unfold check. destruct (negb _); [cbn; intros; reflexivity |].
  set (validation := if truthy (of_opt_str vat_number)
                     then validate_vat_number w (default "" vat_number) else ret false).
  unfold bind.
  destruct (validation s) as [[valid | e] sa]; clear validation; [| intros; reflexivity].
  destruct (subscript EU_COUNTRIES country_code sa) as [[currency | e] sa'];
    [| intros; reflexivity].
  destruct (get_vat_rate options w country_code None sa') as [[rate | e] sb];
    [| intros; reflexivity].
  destruct (get_exchange_rate py_round w country_code src_currency sb)
    as [[exchange_rate | e] sc]; [| intros; reflexivity].
  cbn [ret]. split; [reflexivity |].
  intros a. destruct (float_truthy a); [| reflexivity].
  unfold effective_rate. cbn [o_should_charge_vat o_vat_rate].
  destruct (truthy _); [destruct rate as [v |] |]; reflexivity.
Qed.

(** X10. The amount changes neither the requests nor the caches nor
    the other keys of the result. If [check] without amount returns a
    result, then with a non-zero amount it returns the same result with
    the four amount keys added, except when VAT is to be charged and no
    rate is known under the configured label: then it raises [TypeError].
    If [check] without amount raises, it raises the same with any
    amount. *)
Theorem check_amount_only_adds (py_round : float -> Z -> float) (options : Options)
    (w : World) (country_code : string) (vat_number : option string)
    (src_currency : string) (s : State) :
  (forall o s' a,
     check py_round options w country_code vat_number None src_currency s = (Ok o, s') ->
     float_truthy a = true ->
     check py_round options w country_code vat_number (Some a) src_currency s
     = match effective_rate o with
       | Some rate =>
           (Ok {| o_country := o_country o;
                  o_currency := o_currency o;
                  o_vat_rate := o_vat_rate o;
                  o_vat_number := o_vat_number o;
                  o_is_vat_number_valid := o_is_vat_number_valid o;
                  o_should_charge_vat := o_should_charge_vat o;
                  o_exchange_rate := o_exchange_rate o;
                  o_src_currency := o_src_currency o;
                  o_amounts := Some
                    {| amount := a;
                       vat_amount := py_round (a * rate)%float 2;
                       amount_with_vat := (a + a * rate)%float;
                       exchanged_amount_with_vat :=
                         py_round ((a + a * rate) * o_exchange_rate o)%float 2 |} |},
            s')
       | None => (Raise TypeError, s')
       end) /\
  (forall e s' amount,
     check py_round options w country_code vat_number None src_currency s = (Raise e, s') ->
     check py_round options w country_code vat_number amount src_currency s
     = (Raise e, s')) /\
  (forall amount,
     (check py_round options w country_code vat_number amount src_currency s).2
     = (check py_round options w country_code vat_number None src_currency s).2).
Proof.
  pose proof (check_amount_cases py_round options w country_code vat_number
                src_currency s) as H.
  destruct (check py_round options w country_code vat_number None src_currency s)
    as [[o | e] s0] eqn:Hnone.
  - destruct H as [_ H]. split_and!.
    + intros o' s' a [= <- <-] Ha. rewrite H, Ha. reflexivity.
    + intros e s' amount [=].
    + intros [a |]; [| rewrite Hnone; reflexivity].
      rewrite H. destruct (float_truthy a); [| reflexivity].
      destruct (effective_rate o); reflexivity.
  - split_and!.
    + intros o s' a [=].
    + intros e' s' amount [= <- <-]. apply H.
    + intros amount. rewrite H. reflexivity.
Qed.

(** In [a_world] TIC knows no rate with the label [super]: a seller
    configured with it gets [TypeError] for a French buyer and an
    amount. *)
Lemma check_amount_only_adds_witness :
  check round_half_even {| own_country := Some "FR"; vat_rate := "super" |}
    a_world "FR" None (Some 100%float) "EUR" initial_state
  = (Raise TypeError,
     (check round_half_even {| own_country := Some "FR"; vat_rate := "super" |}
        a_world "FR" None None "EUR" initial_state).2).
Proof.
  refine (proj1 (check_amount_only_adds round_half_even
                   {| own_country := Some "FR"; vat_rate := "super" |}
                   a_world "FR" None "EUR" initial_state)
            {| o_country := "FR"; o_currency := "EUR"; o_vat_rate := None;
               o_vat_number := None; o_is_vat_number_valid := false;
               o_should_charge_vat := PBool true; o_exchange_rate := 1%float;
               o_src_currency := "EUR"; o_amounts := None |}
            _ 100%float _ _);
    vm_compute; reflexivity.
Defined.



(** ** The request to VIES *)

Lemma substring_all (s : string) : substring 0 (String.length s) s = s.
Proof. induction s as [| c s IH]; [reflexivity |]. cbn. f_equal. exact IH. Qed.

Lemma slices_rejoin (s : string) : slice_0_2 s ++ slice_2_end s = s.
Proof.
  unfold slice_0_2, slice_2_end.
  destruct s as [| a [| b r]]; try reflexivity.
  cbn. rewrite Nat.sub_0_r, substring_all.
  destruct r; reflexivity.
Qed.

Lemma append_length (s t : string) :
  String.length (s ++ t) = (String.length s + String.length t)%nat.
Proof.
  induction s as [| c s IH]; [reflexivity |].
  change (String c s ++ t) with (String c (s ++ t)). cbn. f_equal. exact IH.
Qed.

Lemma slice_0_2_length (s : string) :
  (2 <= String.length s)%nat -> String.length (slice_0_2 s) = 2%nat.
Proof.
  unfold slice_0_2. destruct s as [| a [| b r]]; cbn; try lia.
  destruct r; reflexivity.
Qed.

(** X12. For a VAT number of at least three characters
    [validate_vat_number] sends exactly one request, whatever the answer.
    Its two arguments split the number without loss: the country code is
    the upper-cased form of a two-character prefix, the rest is not
    empty and is sent as it was typed, and prefix and rest joined give
    the number back. *)
Theorem validate_vat_number_request (w : World) (vat_number : string) (s : State) :
  (3 <= String.length vat_number)%nat ->
  exists prefix rest,
    calls (validate_vat_number w vat_number s).2
    = (calls s ++ [CallVIES (upper prefix) rest])%list /\
    prefix ++ rest = vat_number /\
    String.length prefix = 2%nat /\
    rest <> "".
Proof.
  intros Hlen. exists (slice_0_2 vat_number), (slice_2_end vat_number). split_and!.
  - unfold validate_vat_number.
    destruct (Nat.ltb_spec (String.length vat_number) 3) as [Hlt | _]; [lia |].
    unfold except_WebFault, request.
    destruct (vies_checkVat w _ _) as [valid | e]; [reflexivity |].
    destruct e; reflexivity.
  - apply slices_rejoin.
  - apply slice_0_2_length. lia.
  - intros Hrest.
    pose proof (slices_rejoin vat_number) as Hjoin.
    rewrite Hrest in Hjoin.
    apply (f_equal String.length) in Hjoin.
    rewrite append_length, slice_0_2_length in Hjoin by lia.
    cbn in Hjoin. lia.
Qed.

Lemma validate_vat_number_request_witness :
  exists prefix rest,
    calls (validate_vat_number a_world "fr 12 345" initial_state).2
    = ([] ++ [CallVIES (upper prefix) rest])%list /\
    prefix ++ rest = "fr 12 345" /\
    String.length prefix = 2%nat /\
    rest <> "".
Proof.
  apply (validate_vat_number_request a_world "fr 12 345" initial_state).
  cbn. lia.
Defined.

(** ** The model's country and rate *)

Lemma truthy_is_eu_country_upper (country_code : option string) :
  truthy (is_eu_country (upper <$> country_code)) = truthy (is_eu_country country_code).
Proof.
  destruct country_code as [c |]; [| reflexivity]. cbn [fmap option_fmap option_map].
  rewrite !truthy_is_eu_country. unfold eu_member. rewrite upper_idempotent. reflexivity.
Qed.

(** X13. [set_model_country] does not depend on the case of the code:
    the code and its upper-case form give the same object, outcome and
    state. For an accepted code the country it stores is the upper-case
    form, a key of the table, whether the rate lookup succeeds or not.
    For a refused code (also [None] and the empty string) it clears
    country and rate and sends no request. *)
Theorem set_model_country_normalises (options : Options) (w : World) (obj : Model.t)
    (country_code : option string) (s : State) :
  set_model_country options w obj (upper <$> country_code) s
  = set_model_country options w obj country_code s /\
  (truthy (is_eu_country country_code) = true ->
   exists code dest,
     country_code = Some code /\
     Model.eu_vat_country (object_of (set_model_country options w obj country_code s))
     = Some (upper code) /\
     EU_COUNTRIES !! upper code = Some dest) /\
  (truthy (is_eu_country country_code) = false ->
   set_model_country options w obj country_code s
   = {| outcome_of := Ok tt;
        object_of := {| Model.eu_vat_country := None;
                        Model.eu_vat_number := Model.eu_vat_number obj;
                        Model.eu_vat_rate := None |};
        state_of := s |}).
Proof.
  split_and!.
  - unfold set_model_country. rewrite truthy_is_eu_country_upper.
    destruct country_code as [c |]; [| reflexivity].
    change (default "" (upper <$> Some c)) with (upper c).
    change (default "" (Some c)) with c.
    rewrite upper_idempotent. reflexivity.
  - intros Heu. destruct country_code as [c |]; [| discriminate].
    unfold set_model_country. rewrite Heu.
    change (default "" (Some c)) with c.
    rewrite truthy_is_eu_country in Heu. unfold eu_member, py_in in Heu.
    destruct (EU_COUNTRIES !! upper c) as [dest |] eqn:Hkey; [| discriminate].
    exists c, dest. split_and!; [reflexivity | | exact Hkey].
    destruct (get_vat_rate options w (upper c) None s) as [[rate | e] s1]; reflexivity.
  - intros Heu. unfold set_model_country. rewrite Heu. reflexivity.
Qed.

Lemma set_model_country_normalises_witness :
  exists code dest,
    Some "fr" = Some code /\
    Model.eu_vat_country
      (object_of (set_model_country (seller "FR") a_world a_customer (Some "fr")
                    initial_state))
    = Some (upper code) /\
    EU_COUNTRIES !! upper code = Some dest.
Proof.
  apply (set_model_country_normalises (seller "FR") a_world a_customer (Some "fr")
           initial_state).
  reflexivity.
Defined.

(** X14. When TIC answers with a fault for an accepted code whose
    upper-case form is not in the VAT-rate cache, [set_model_country]
    raises [UnboundLocalError] and leaves the object with the new
    country and the rate it had before, which belongs to the previous
    country. TIC was asked about the upper-case form, and the empty
    entry stored for it stays in the cache. *)
Theorem set_model_country_failure (options : Options) (w : World) (obj : Model.t)
    (country_code : string) (s : State) :
  truthy (is_eu_country (Some country_code)) = true ->
  _vat_rates_cache s !! upper country_code = None ->
  tic_getRates w (upper country_code) (today w) = Raise WebFault ->
  set_model_country options w obj (Some country_code) s
  = {| outcome_of := Raise (UnboundLocalError "r");
       object_of := {| Model.eu_vat_country := Some (upper country_code);
                       Model.eu_vat_number := Model.eu_vat_number obj;
                       Model.eu_vat_rate := Model.eu_vat_rate obj |};
       state_of :=
         {| _exchange_rates_cache := _exchange_rates_cache s;
            _vat_rates_cache := <[upper country_code := ∅]> (_vat_rates_cache s);
            calls := calls s ++ [CallTIC (upper country_code) (today w)] |} |}.
Proof.
  intros Heu Hmiss Hfault. unfold set_model_country. rewrite Heu.
  change (default "" (Some country_code)) with country_code.
  rewrite truthy_is_eu_country in Heu.
  assert (eu_member (upper country_code) = true) as Heu'
    by (unfold eu_member in *; rewrite upper_idempotent; exact Heu).
  rewrite (get_vat_rate_miss _ _ _ _ _ Heu' Hmiss), Hfault. reflexivity.
Qed.

(** An Irish customer moves to France while TIC is down: the country
    becomes [FR], the rate stays the Irish 23. *)
Lemma set_model_country_failure_witness :
  set_model_country (seller "FR") a_failing_world a_customer (Some "fr") initial_state
  = {| outcome_of := Raise (UnboundLocalError "r");
       object_of := {| Model.eu_vat_country := Some "FR";
                       Model.eu_vat_number := Some "IE1234567";
                       Model.eu_vat_rate := Some 23%float |};
       state_of :=
         {| _exchange_rates_cache := ∅;
            _vat_rates_cache := <["FR" := ∅]> ∅;
            calls := [CallTIC "FR" 736330] |} |}.
Proof.
  apply (set_model_country_failure (seller "FR") a_failing_world a_customer "fr"
           initial_state); reflexivity.
Defined.

(** X15. After [set_model_country] returned for an accepted code, the
    property [should_charge_eu_vat] of the object is a [bool] that
    depends on the stored VAT number only through its presence: VAT is
    charged when the upper-cased code is the seller's own country or no
    number is stored, and a stored non-empty number exempts a buyer of
    another EU country without any validation. After a refused code the
    property is [None]. *)
Theorem should_charge_eu_vat_after_set (options : Options) (w : World) (obj : Model.t)
    (country_code : option string) (s : State) :
  outcome_of (set_model_country options w obj country_code s) = Ok tt ->
  should_charge_eu_vat options (object_of (set_model_country options w obj country_code s))
  = if truthy (is_eu_country country_code)
    then PBool (opt_str_eqb (own_country options) (upper <$> country_code)
                || negb (truthy (of_opt_str (Model.eu_vat_number obj))))
    else PNone.
Proof.
  intros Hok. unfold should_charge_eu_vat. rewrite should_charge_vat_value.
  unfold set_model_country in *.
  destruct (truthy (is_eu_country country_code)) eqn:Heu.
  - destruct country_code as [c |]; [| discriminate].
    change (default "" (Some c)) with c in *.
    destruct (get_vat_rate options w (upper c) None s) as [[rate | e] s1];
      [| discriminate].
    cbn [object_of Model.eu_vat_country Model.eu_vat_number].
    pose proof (truthy_is_eu_country_upper (Some c)) as Hup.
    cbn [fmap option_fmap option_map] in Hup |- *.
    rewrite Hup, Heu. reflexivity.
  - reflexivity.
Qed.

(** The Irish customer, with a stored number that nobody validated, is
    exempt for a French seller once the country is set to [ie]. *)
Lemma should_charge_eu_vat_after_set_witness :
  should_charge_eu_vat (seller "FR")
    (object_of (set_model_country (seller "FR") a_world a_customer (Some "ie")
                  initial_state))
  = if truthy (is_eu_country (Some "ie"))
    then PBool (opt_str_eqb (own_country (seller "FR")) (upper <$> Some "ie")
                || negb (truthy (of_opt_str (Model.eu_vat_number a_customer))))
    else PNone.
Proof.
  apply (should_charge_eu_vat_after_set (seller "FR") a_world a_customer (Some "ie")
           initial_state).
  reflexivity.
Defined.

(** ** Invoices *)

(** The invoice after the first two assignments of [on_invoice]. *)
Lemma on_invoice_marked (sender : Invoice.t) :
  let marked :=
    Invoice.set_eu_vat_number (Invoice.customer_eu_vat_number sender)
      (Invoice.set_is_eu_country true sender) in
  Invoice.eu_vat_number marked = Invoice.customer_eu_vat_number sender /\
  Invoice.is_eu_country marked = Some true /\
  Invoice.eu_vat_amount marked = Invoice.eu_vat_amount sender /\
  Invoice.tax_amount marked = Invoice.tax_amount sender /\
  Invoice.country marked = Invoice.country sender /\
  Invoice.currency marked = Invoice.currency sender.
Proof. cbn. split_and!; reflexivity. Qed.

Ltac invoice_cbn :=
  cbn [Invoice.country Invoice.currency Invoice.tax_amount
       Invoice.customer_eu_vat_number Invoice.is_eu_country Invoice.eu_vat_number
       Invoice.eu_exchange_rate Invoice.eu_vat_amount Invoice.customer_special_mention
       Invoice.set_is_eu_country Invoice.set_eu_vat_number Invoice.set_eu_exchange_rate
       Invoice.set_eu_vat_amount Invoice.set_customer_special_mention].

(** The exchange-rate step of [on_invoice] for an accepted country, by
    the outcome of [get_exchange_rate]. *)
Lemma on_invoice_accepted (py_round : float -> Z -> float)
    (py_format : string -> string -> outcome string)
    (mention_message : option string) (w : World) (sender : Invoice.t)
    (code : string) (s : State) :
  Invoice.country sender = Some code ->
  truthy (is_eu_country (Some code)) = true ->
  let r := on_invoice py_round py_format mention_message w sender s in
  let i := issue_invoice r in
  Invoice.is_eu_country i = Some true /\
  Invoice.eu_vat_number i = Invoice.customer_eu_vat_number sender /\
  match get_exchange_rate py_round w code (Invoice.currency sender) s with
  | (Ok rate, s1) =>
      issue_state r = s1 /\ issue_logged r = [] /\
      Invoice.eu_exchange_rate i = Some rate /\
      Invoice.eu_vat_amount i
      = match Invoice.tax_amount sender with
        | Some tax =>
            if float_truthy tax then Some (tax * rate)%float
            else Invoice.eu_vat_amount sender
        | None => Invoice.eu_vat_amount sender
        end
  | (Raise e, s1) =>
      issue_state r = s1 /\ issue_logged r = [e] /\
      Invoice.eu_exchange_rate i = None /\
      Invoice.eu_vat_amount i = Invoice.eu_vat_amount sender
  end /\
  (if truthy (of_opt_str (Invoice.customer_eu_vat_number sender))
      && truthy (of_opt_str mention_message)
   then match py_format (default "" mention_message)
                (default "" (Invoice.customer_eu_vat_number sender)) with
        | Ok text =>
            issue_outcome r = Ok tt /\ Invoice.customer_special_mention i = Some text
        | Raise e =>
            issue_outcome r = Raise e /\
            Invoice.customer_special_mention i = Invoice.customer_special_mention sender
        end
   else issue_outcome r = Ok tt /\
        Invoice.customer_special_mention i = Invoice.customer_special_mention sender).
Proof.
  intros Hcountry Heu. cbv zeta. unfold on_invoice. invoice_cbn.
  rewrite Hcountry, Heu.
  change (default "" (Some code)) with code.
  destruct (get_exchange_rate py_round w code (Invoice.currency sender) s)
    as [[rate | e] s1]; invoice_cbn.
  - destruct (Invoice.tax_amount sender) as [tax |];
      [destruct (float_truthy tax) |]; invoice_cbn;
      (destruct (truthy (of_opt_str (Invoice.customer_eu_vat_number sender))
                 && truthy (of_opt_str mention_message));
       [destruct (py_format _ _) |]; cbn; split_and!; reflexivity).
  - destruct (truthy (of_opt_str (Invoice.customer_eu_vat_number sender))
              && truthy (of_opt_str mention_message));
      [destruct (py_format _ _) |]; cbn; split_and!; reflexivity.
Qed.

Lemma get_exchange_rate_not_a_key (py_round : float -> Z -> float) (w : World)
    (country_code src_currency : string) (s : State) :
  eu_member country_code = true ->
  EU_COUNTRIES !! country_code = None ->
  get_exchange_rate py_round w country_code src_currency s
  = (Raise (KeyError country_code), s).
Proof.
  intros Heu Hkey. unfold get_exchange_rate.
  rewrite truthy_is_eu_country, Heu. cbn [negb].
  unfold bind, subscript. rewrite Hkey. reflexivity.
Qed.

(** X16. [on_invoice] lets no failure of the exchange-rate lookup
    through: it returns normally unless the formatting of the customer
    mention raises, which can only happen for an accepted country, a
    non-empty customer VAT number and a non-empty message. For a country
    that is refused it only sets [is_eu_country] to [False] and sends no
    request. *)
Theorem on_invoice_only_format_raises (py_round : float -> Z -> float)
    (py_format : string -> string -> outcome string)
    (mention_message : option string) (w : World) (sender : Invoice.t) (s : State) :
  let r := on_invoice py_round py_format mention_message w sender s in
  (forall e,
     issue_outcome r = Raise e ->
     truthy (is_eu_country (Invoice.country sender)) = true /\
     truthy (of_opt_str (Invoice.customer_eu_vat_number sender)) = true /\
     truthy (of_opt_str mention_message) = true /\
     py_format (default "" mention_message)
       (default "" (Invoice.customer_eu_vat_number sender)) = Raise e) /\
  (truthy (is_eu_country (Invoice.country sender)) = false ->
   r = {| issue_outcome := Ok tt;
          issue_invoice := Invoice.set_is_eu_country false sender;
          issue_logged := [];
          issue_state := s |}).
Proof.
  intros r. split.
  - intros e Hraise.
    destruct (truthy (is_eu_country (Invoice.country sender))) eqn:Heu.
    + destruct (Invoice.country sender) as [code |] eqn:Hcountry; [| discriminate].
      pose proof (on_invoice_accepted py_round py_format mention_message w sender
                    code s Hcountry Heu) as (_ & _ & _ & Hmention).
      fold r in Hmention.
      destruct (truthy (of_opt_str (Invoice.customer_eu_vat_number sender))) eqn:Hn;
        destruct (truthy (of_opt_str mention_message)) eqn:Hm; cbn [andb] in Hmention;
        try (destruct Hmention as [Hok _]; rewrite Hok in Hraise; discriminate).
      destruct (py_format _ _) as [text | e'];
        destruct Hmention as [Hout _]; rewrite Hout in Hraise; [discriminate |].
      injection Hraise as ->. split_and!; reflexivity.
    + subst r. unfold on_invoice in Hraise. rewrite Heu in Hraise. discriminate.
  - intros Heu. subst r. unfold on_invoice. rewrite Heu. reflexivity.
Qed.

(** X17. When the exchange-rate lookup of [on_invoice] raises, whatever
    the exception, the invoice is still marked as European and gets the
    customer's VAT number; the exception is logged, [eu_exchange_rate]
    becomes [None], and [eu_vat_amount] keeps the value it had. *)
Theorem on_invoice_lookup_failure (py_round : float -> Z -> float)
    (py_format : string -> string -> outcome string)
    (mention_message : option string) (w : World) (sender : Invoice.t)
    (code : string) (s s1 : State) (e : exn) :
  Invoice.country sender = Some code ->
  truthy (is_eu_country (Some code)) = true ->
  get_exchange_rate py_round w code (Invoice.currency sender) s = (Raise e, s1) ->
  let r := on_invoice py_round py_format mention_message w sender s in
  issue_logged r = [e] /\
  issue_state r = s1 /\
  Invoice.is_eu_country (issue_invoice r) = Some true /\
  Invoice.eu_vat_number (issue_invoice r) = Invoice.customer_eu_vat_number sender /\
  Invoice.eu_exchange_rate (issue_invoice r) = None /\
  Invoice.eu_vat_amount (issue_invoice r) = Invoice.eu_vat_amount sender.
Proof.
  intros Hcountry Heu Hrate r.
  pose proof (on_invoice_accepted py_round py_format mention_message w sender
                code s Hcountry Heu) as (Hmark & Hnumber & Hstep & _).
  rewrite Hrate in Hstep. destruct Hstep as (Hstate & Hlog & Hrate' & Hamount).
  split_and!; assumption.
Qed.

(** A Danish invoice in US dollars on a day the feed is unreachable. *)
Lemma on_invoice_lookup_failure_witness :
  let r := on_invoice round_half_even a_format (Some "VAT Number: {number}")
             a_failing_world (an_invoice "DK") initial_state in
  issue_logged r = [Failure "ConnectionError"] /\
  issue_state r = logged CallECB initial_state /\
  Invoice.is_eu_country (issue_invoice r) = Some true /\
  Invoice.eu_vat_number (issue_invoice r) = Some "DK12345678" /\
  Invoice.eu_exchange_rate (issue_invoice r) = None /\
  Invoice.eu_vat_amount (issue_invoice r) = Some 60%float.
Proof.
  apply (on_invoice_lookup_failure round_half_even a_format (Some "VAT Number: {number}")
           a_failing_world (an_invoice "DK") "DK" initial_state); reflexivity.
Defined.

(** X18. An invoice whose country passes the membership test without
    being a key of the table (an EU code not in upper case) is marked as
    European, but the [KeyError] of the exchange-rate lookup is logged
    and no rate is stored; no request is sent and the caches are
    untouched. *)
Theorem on_invoice_lowercase_country (py_round : float -> Z -> float)
    (py_format : string -> string -> outcome string)
    (mention_message : option string) (w : World) (sender : Invoice.t)
    (code : string) (s : State) :
  Invoice.country sender = Some code ->
  truthy (is_eu_country (Some code)) = true ->
  EU_COUNTRIES !! code = None ->
  let r := on_invoice py_round py_format mention_message w sender s in
  issue_logged r = [KeyError code] /\
  issue_state r = s /\
  Invoice.is_eu_country (issue_invoice r) = Some true /\
  Invoice.eu_exchange_rate (issue_invoice r) = None /\
  Invoice.eu_vat_amount (issue_invoice r) = Invoice.eu_vat_amount sender.
Proof.
  intros Hcountry Heu Hkey r.
  pose proof (on_invoice_accepted py_round py_format mention_message w sender
                code s Hcountry Heu) as (Hmark & _ & Hstep & _).
  rewrite truthy_is_eu_country in Heu.
  rewrite (get_exchange_rate_not_a_key _ _ _ _ _ Heu Hkey) in Hstep.
  destruct Hstep as (Hstate & Hlog & Hrate' & Hamount).
  split_and!; assumption.
Qed.

Lemma on_invoice_lowercase_country_witness :
  let r := on_invoice round_half_even a_format (Some "VAT Number: {number}")
             a_world (an_invoice "dk") initial_state in
  issue_logged r = [KeyError "dk"] /\
  issue_state r = initial_state /\
  Invoice.is_eu_country (issue_invoice r) = Some true /\
  Invoice.eu_exchange_rate (issue_invoice r) = None /\
  Invoice.eu_vat_amount (issue_invoice r) = Some 60%float.
Proof.
  apply (on_invoice_lowercase_country round_half_even a_format
           (Some "VAT Number: {number}") a_world (an_invoice "dk") "dk" initial_state);
    reflexivity.
Defined.

(** X19. When the exchange-rate lookup of [on_invoice] returns a rate,
    the invoice gets that rate, and [eu_vat_amount] becomes the tax
    amount times the rate, not rounded; a tax amount that is absent or
    zero leaves [eu_vat_amount] as it was. Nothing is logged. With a
    non-empty customer VAT number and message, the customer mention is
    the formatted message. *)
Theorem on_invoice_rate_found (py_round : float -> Z -> float)
    (py_format : string -> string -> outcome string)
    (mention_message : option string) (w : World) (sender : Invoice.t)
    (code : string) (s s1 : State) (rate : float) :
  Invoice.country sender = Some code ->
  truthy (is_eu_country (Some code)) = true ->
  get_exchange_rate py_round w code (Invoice.currency sender) s = (Ok rate, s1) ->
  let r := on_invoice py_round py_format mention_message w sender s in
  issue_logged r = [] /\
  issue_state r = s1 /\
  Invoice.eu_exchange_rate (issue_invoice r) = Some rate /\
  Invoice.eu_vat_amount (issue_invoice r)
  = match Invoice.tax_amount sender with
    | Some tax =>
        if float_truthy tax then Some (tax * rate)%float
        else Invoice.eu_vat_amount sender
    | None => Invoice.eu_vat_amount sender
    end /\
  (forall text,
     truthy (of_opt_str (Invoice.customer_eu_vat_number sender)) = true ->
     truthy (of_opt_str mention_message) = true ->
     py_format (default "" mention_message)
       (default "" (Invoice.customer_eu_vat_number sender)) = Ok text ->
     issue_outcome r = Ok tt /\
     Invoice.customer_special_mention (issue_invoice r) = Some text).
Proof.
  intros Hcountry Heu Hrate r.
  pose proof (on_invoice_accepted py_round py_format mention_message w sender
                code s Hcountry Heu) as (_ & _ & Hstep & Hmention).
  rewrite Hrate in Hstep. destruct Hstep as (Hstate & Hlog & Hrate' & Hamount).
  split_and!; try assumption.
  intros text Hn Hm Hformat. fold r in Hmention.
  rewrite Hn, Hm, Hformat in Hmention. exact Hmention.
Qed.

Lemma on_invoice_rate_found_witness :
  let r := on_invoice round_half_even a_format (Some "VAT Number: {number}")
             a_world (an_invoice "DK") initial_state in
  issue_logged r = [] /\
  issue_state r = (get_exchange_rate round_half_even a_world "DK" "USD" initial_state).2 /\
  Invoice.eu_exchange_rate (issue_invoice r) = Some 6%float /\
  Invoice.eu_vat_amount (issue_invoice r)
  = match Some 20%float with
    | Some tax => if float_truthy tax then Some (tax * 6)%float else Some 60%float
    | None => Some 60%float
    end /\
  (forall text,
     truthy (PStr "DK12345678") = true ->
     truthy (PStr "VAT Number: {number}") = true ->
     a_format "VAT Number: {number}" "DK12345678" = Ok text ->
     issue_outcome r = Ok tt /\
     Invoice.customer_special_mention (issue_invoice r) = Some text).
Proof.
  apply (on_invoice_rate_found round_half_even a_format (Some "VAT Number: {number}")
           a_world (an_invoice "DK") "DK" initial_state
           (get_exchange_rate round_half_even a_world "DK" "USD" initial_state).2
           6%float);
    vm_compute; reflexivity.
Defined.

(** ** What the caches hold in a running process *)

Lemma only_accepted_added_refl s : only_accepted_added s s.
Proof. intros country H. left. exact H. Qed.

Lemma only_accepted_added_trans s1 s2 s3 :
  only_accepted_added s1 s2 -> only_accepted_added s2 s3 -> only_accepted_added s1 s3.
Proof.
  intros H12 H23 country H. destruct (H23 _ H) as [H2 | Heu]; [| right; exact Heu].
  apply H12, H2.
Qed.

Lemma same_vat_rates_only_accepted {A} (m : M A) :
  respects same_vat_rates m -> respects only_accepted_added m.
Proof. intros H s country Hc. left. rewrite (H s) in Hc. exact Hc. Qed.

Lemma get_vat_rate_only_accepted options w country_code rate_type :
  respects only_accepted_added (get_vat_rate options w country_code rate_type).
Proof.
  intros s country Hc.
  destruct (eu_member country_code) eqn:Heu.
  - destruct (_vat_rates_cache s !! country_code) as [cached |] eqn:Hhit.
    + rewrite (get_vat_rate_hit _ _ _ _ _ _ Heu Hhit) in Hc. left. exact Hc.
    + rewrite (get_vat_rate_miss _ _ _ _ _ Heu Hhit) in Hc.
      destruct (decide (country = country_code)) as [-> | Hne]; [right; exact Heu |].
      left. destruct (tic_getRates w country_code (today w)) as [rates | e]; cbn in Hc.
      * rewrite lookup_insert_ne in Hc by congruence. exact Hc.
      * destruct e; cbn in Hc; try exact Hc.
        rewrite lookup_insert_ne in Hc by congruence. exact Hc.
  - unfold get_vat_rate in Hc. rewrite truthy_is_eu_country, Heu in Hc. left. exact Hc.
Qed.

Lemma check_only_accepted py_round options w country_code vat_number amount src_currency :
  respects only_accepted_added
    (check py_round options w country_code vat_number amount src_currency).
Proof.
  unfold check.
  respects_with only_accepted_added_refl only_accepted_added_trans
    ltac:(first [ apply get_vat_rate_only_accepted
                | apply same_vat_rates_only_accepted, validate_vat_number_same_vat_rates
                | apply same_vat_rates_only_accepted, get_exchange_rate_same_vat_rates ]).
Qed.

Lemma steps_only_accepted (s s' : State) : rtc step s s' -> only_accepted_added s s'.
Proof.
  induction 1 as [s | s1 s2 s3 H12 _ IH].
  - apply only_accepted_added_refl.
  - refine (only_accepted_added_trans _ _ _ _ IH). destruct H12.
    + apply same_vat_rates_only_accepted, fetch_exchange_rates_same_vat_rates.
    + apply get_vat_rate_only_accepted.
    + apply same_vat_rates_only_accepted, validate_vat_number_same_vat_rates.
    + apply same_vat_rates_only_accepted, get_exchange_rate_same_vat_rates.
    + apply check_only_accepted.
Qed.

(** X20. In every state that calls of the module lead to from the
    state at import time, each key of the VAT-rate cache is a code that
    passes the membership test: its upper-case form is a key of the
    country table, and a key of ASCII characters has two characters. *)
Theorem vat_rates_cache_keys (s : State) (country : string) :
  reachable s ->
  is_Some (_vat_rates_cache s !! country) ->
  is_Some (EU_COUNTRIES !! upper country) /\
  (is_ascii country = true -> String.length country = 2%nat).
Proof.
  intros Hreach Hkey.
  destruct (steps_only_accepted _ _ Hreach country Hkey) as [Hinit | Heu].
  - cbn in Hinit. rewrite lookup_empty in Hinit. destruct Hinit as [x [=]].
  - unfold eu_member, py_in in Heu.
    destruct (EU_COUNTRIES !! upper country) as [dest |] eqn:Hdest; [| discriminate].
    split; [eexists; reflexivity |]. intros _.
    apply table_keys_length in Hdest. unfold upper in Hdest.
    rewrite str_map_length in Hdest. exact Hdest.
Qed.

Lemma vat_rates_cache_keys_witness :
  is_Some (EU_COUNTRIES !! upper "fr") /\ String.length "fr" = 2%nat.
Proof.
  destruct (vat_rates_cache_keys
              (get_vat_rate defaults a_world "fr" None initial_state).2 "fr")
    as [Hkey Hlength].
  - eapply rtc_l; [apply (step_get_vat_rate defaults a_world "fr" None) | apply rtc_refl].
  - vm_compute. eexists. reflexivity.
  - split; [exact Hkey | apply Hlength; reflexivity].
Defined.

(** *** A second [check] *)

Lemma get_vat_rate_Ok_cached (options : Options) (w : World) (country_code : string)
    (rate_type : option string) (s s1 : State) (rate : option float) :
  get_vat_rate options w country_code rate_type s = (Ok rate, s1) ->
  eu_member country_code = true /\ is_Some (_vat_rates_cache s1 !! country_code).
Proof.
  destruct (eu_member country_code) eqn:Heu.
  - destruct (_vat_rates_cache s !! country_code) as [cached |] eqn:Hhit.
    + rewrite (get_vat_rate_hit _ _ _ _ _ _ Heu Hhit). intros [= _ <-].
      split; [reflexivity | rewrite Hhit; eexists; reflexivity].
    + rewrite (get_vat_rate_miss _ _ _ _ _ Heu Hhit).
      destruct (tic_getRates w country_code (today w)) as [rates | e].
      * intros [= _ <-]. split; [reflexivity |]. cbn.
        rewrite lookup_insert_eq. eexists. reflexivity.
      * destruct e; discriminate.
  - unfold get_vat_rate. rewrite truthy_is_eu_country, Heu. discriminate.
Qed.

Lemma same_state_refl s : same_state s s.
Proof. reflexivity. Qed.

Lemma same_state_trans s1 s2 s3 : same_state s1 s2 -> same_state s2 s3 -> same_state s1 s3.
Proof. unfold same_state. congruence. Qed.

Lemma get_exchange_rate_Ok_cached (py_round : float -> Z -> float) (w : World)
    (country_code src_currency : string) (s s1 : State) (rate : float) :
  get_exchange_rate py_round w country_code src_currency s = (Ok rate, s1) ->
  is_Some (_exchange_rates_cache s1 !! today w).
Proof.
  unfold get_exchange_rate. destruct (negb _); [discriminate |].
  intros H. apply bind_Ok_inv in H as (dest & s0 & Hdest & H).
  unfold subscript in Hdest.
  destruct (EU_COUNTRIES !! country_code) as [d |]; [| discriminate].
  injection Hdest as _ <-.
  apply bind_Ok_inv in H as (rates & s2 & Hfetch & H).
  apply fetch_exchange_rates_cached in Hfetch.
  assert (s1 = s2) as ->; [| eexists; exact Hfetch].
  assert (respects same_state
            (if String.eqb src_currency dest then ret 1%float
             else if String.eqb src_currency "EUR" then subscript rates dest
             else if negb (py_in src_currency rates) then
               raise (ServiceError "Can only use a currency listed in the ECB rates" 400)
             else
               src_rate <- subscript rates src_currency ;;
               inverse <- py_div 1%float src_rate ;;
               dest_rate <- subscript rates dest ;;
               ret (py_round (inverse * dest_rate)%float 5))) as Hsame.
  { respects_with same_state_refl same_state_trans ltac:(fail). }
  specialize (Hsame s2). rewrite H in Hsame. exact Hsame.
Qed.

Lemma get_exchange_rate_silent_on_hit (py_round : float -> Z -> float) (w : World)
    (country_code src_currency : string) (s : State) :
  is_Some (_exchange_rates_cache s !! today w) ->
  (get_exchange_rate py_round w country_code src_currency s).2 = s.
Proof.
  intros [rates Hhit]. unfold get_exchange_rate. destruct (negb _); [reflexivity |].
  unfold bind at 1. unfold subscript at 1.
  destruct (EU_COUNTRIES !! country_code) as [dest |]; [| reflexivity].
  cbn [ret]. unfold bind at 1. rewrite (fetch_exchange_rates_hit _ _ _ Hhit).
  assert (respects same_state
            (if String.eqb src_currency dest then ret 1%float
             else if String.eqb src_currency "EUR" then subscript rates dest
             else if negb (py_in src_currency rates) then
               raise (ServiceError "Can only use a currency listed in the ECB rates" 400)
             else
               src_rate <- subscript rates src_currency ;;
               inverse <- py_div 1%float src_rate ;;
               dest_rate <- subscript rates dest ;;
               ret (py_round (inverse * dest_rate)%float 5))) as Hsame.
  { respects_with same_state_refl same_state_trans ltac:(fail). }
  exact (Hsame s).
Qed.

(** X21. After [check] has returned a result for a country, every later
    [check] for that country on the same date, after any number of calls
    of the module and with any VAT number, amount, currency, options and
    world, answers rate and exchange rate from the caches: it changes no
    cache and sends no request other than the one to VIES. *)
Theorem check_again_uses_caches (py_round py_round' : float -> Z -> float)
    (options options' : Options) (w w' : World) (country_code : string)
    (vat_number vat_number' : option string) (amount amount' : option float)
    (src_currency src_currency' : string) (s s1 s2 : State) (o : PricingResult) :
  check py_round options w country_code vat_number amount src_currency s = (Ok o, s1) ->
  rtc step s1 s2 ->
  today w' = today w ->
  let after := (check py_round' options' w' country_code vat_number' amount'
                  src_currency' s2).2 in
  _vat_rates_cache after = _vat_rates_cache s2 /\
  _exchange_rates_cache after = _exchange_rates_cache s2 /\
  exists made : list Call,
    calls after = (calls s2 ++ made)%list /\
    sublist made [CallVIES (upper (slice_0_2 (default "" vat_number')))
                           (slice_2_end (default "" vat_number'))].
Proof.
  intros Hcheck Hsteps Hdate.
  apply check_Ok_inv in Hcheck as (Heu & _ & _ & _ & _ & _ & (sa & sb & Hvat & Hexch) & _).
  destruct (get_vat_rate_Ok_cached _ _ _ _ _ _ _ Hvat) as [_ [entry Hentry]].
  rewrite <- (get_exchange_rate_same_vat_rates py_round w country_code src_currency sb)
    in Hentry.
  rewrite Hexch in Hentry. cbn [snd] in Hentry.
  destruct (get_exchange_rate_Ok_cached _ _ _ _ _ _ _ Hexch) as [rates Hrates].
  apply (steps_keep_entries _ _ Hsteps) in Hentry.
  apply steps_stable in Hsteps as [Hkept _]. apply Hkept in Hrates.
  rewrite <- Hdate in Hrates. clear Hkept Hvat Hexch sa sb.
  set (validation := if truthy (of_opt_str vat_number')
                     then validate_vat_number w' (default "" vat_number') else ret false).
  assert ((check py_round' options' w' country_code vat_number' amount' src_currency' s2).2
          = (validation s2).2) as Hstate.
  { unfold check. rewrite truthy_is_eu_country, Heu. cbn [negb].
    fold validation. unfold bind at 1.
    assert (_vat_rates_cache (validation s2).2 !! country_code = Some entry) as Hentry'.
    { subst validation. destruct (truthy _); [| exact Hentry].
      rewrite (validate_vat_number_same_vat_rates w' _ s2). exact Hentry. }
    assert (is_Some (_exchange_rates_cache (validation s2).2 !! today w')) as Hrates'.
    { subst validation. destruct (truthy _); [| eexists; exact Hrates].
      rewrite (validate_vat_number_same_snapshots w' _ s2). eexists. exact Hrates. }
    destruct (validation s2) as [[valid | e] sa]; [| reflexivity]. cbn [snd] in *.
    unfold bind at 1. unfold subscript at 1.
    destruct (EU_COUNTRIES !! country_code) as [currency |]; [| reflexivity].
    cbn [ret]. unfold bind at 1.
    rewrite (get_vat_rate_hit _ _ _ _ _ _ Heu Hentry').
    unfold bind at 1.
    pose proof (get_exchange_rate_silent_on_hit py_round' w' country_code src_currency'
                  sa Hrates') as Hsilent.
    destruct (get_exchange_rate py_round' w' country_code src_currency' sa)
      as [[exchange_rate | e] sc]; cbn [snd] in Hsilent; subst sc; [| reflexivity].
    cbv zeta. destruct amount' as [a |]; [| reflexivity].
    destruct (float_truthy a); [| reflexivity].
    unfold bind.
    destruct (truthy (should_charge_vat _ _ _)); [destruct (entry !! _) |]; reflexivity. }
  cbv zeta. rewrite Hstate. subst validation.
  destruct (truthy (of_opt_str vat_number')).
  - split_and!.
    + apply validate_vat_number_same_vat_rates.
    + apply validate_vat_number_same_snapshots.
    + apply validate_vat_number_emits.
  - split_and!; try reflexivity.
    exists []. cbn. rewrite app_nil_r. split; [reflexivity | apply sublist_nil_l].
Qed.

(** A first [check] for Denmark in [a_world], then a second one with a
    VAT number on the same day with TIC and the feed down. *)
Lemma check_again_uses_caches_witness :
  let s1 := (check round_half_even (seller "FR") a_world "DK" None None "EUR"
               initial_state).2 in
  let after := (check round_half_even (seller "FR") a_failing_world "DK"
                  (Some "DK12345678") (Some 10%float) "USD" s1).2 in
  _vat_rates_cache after = _vat_rates_cache s1 /\
  _exchange_rates_cache after = _exchange_rates_cache s1 /\
  exists made : list Call,
    calls after = (calls s1 ++ made)%list /\
    sublist made [CallVIES (upper (slice_0_2 (default "" (Some "DK12345678"))))
                           (slice_2_end (default "" (Some "DK12345678")))].
Proof.
  apply (check_again_uses_caches round_half_even round_half_even (seller "FR") (seller "FR")
           a_world a_failing_world "DK" None (Some "DK12345678") None (Some 10%float)
           "EUR" "USD" initial_state
           (check round_half_even (seller "FR") a_world "DK" None None "EUR"
              initial_state).2
           (check round_half_even (seller "FR") a_world "DK" None None "EUR"
              initial_state).2
           {| o_country := "DK"; o_currency := "DKK"; o_vat_rate := Some 20%float;
              o_vat_number := None; o_is_vat_number_valid := false;
              o_should_charge_vat := PBool true; o_exchange_rate := 7.5%float;
              o_src_currency := "EUR"; o_amounts := None |}).
  - vm_compute. reflexivity.
  - apply rtc_refl.
  - reflexivity.
Defined.
